(** * Prepayment amortisation script: a shallow embedding

    This development embeds [prepayment_automation.py] in Rocq and checks
    the properties its specification states about the two functions
    [load_prepayment_schedule] and [generate_accounting_entries].

    Modelling decisions, all of them about the libraries underneath the
    script and not about the script itself:

    - A character is a code point below 256, one [ascii] each; a label or
      a cell is a [string] of them.  [str.isalpha] and [str.isdigit] are
      given for that whole range.
    - The CSV file is given tokenised: [None] when the path does not exist,
      otherwise the list of its lines, each line the list of its cells.
      The data lines are as wide as the wider of the header and the first
      data line: a later line with more cells makes [read_csv] raise
      [ParserError], a shorter one is filled with missing values, and
      where the first data line is wider than the header the leading cells
      of every line label the rows and are no column of the frame.
    - A finite float is carried by its exact value, a rational, and the
      two infinities are values of their own; NaN is the absence of a
      number.  Where the script makes a float (a decimal literal that is
      read, [round], a sum) the result is the float64 nearest to the exact
      result, ties to even ([double]).  [round(x, 2)] is the float nearest
      to the exact value of [x] rounded half-even to cents, as CPython
      computes it.  The sign of a zero is not represented.
    - pandas' text-to-number conversion and Python's rendering of a float
      are an interface ([Pandas]); every general theorem holds for all of
      its implementations and the examples run with [plain_pandas], which
      reads a decimal literal as the float nearest to it.  Numbers are
      converted cell by cell and held as floats; pandas holds a column in
      which every cell is a whole number as 64-bit integers, which are the
      same numbers up to [2 ^ 53] in magnitude.
    - Console output ([print]) is not part of any value the functions
      return and is left out. *)

From Stdlib Require Import Bool Arith ZArith QArith Qabs Lia Lqa List.
From Stdlib Require Import Ascii String DecimalString.
Import ListNotations.

Open Scope string_scope.
Open Scope Z_scope.

(** ** Exceptions and results *)

(** The exception classes the script can meet. *)
Inductive exn : Set :=
| FileNotFoundError
| EmptyDataError
| ValueError
| IndexError
| TypeError
| OverflowError
| ParserError.

(** A Python call either returns a value or raises. *)
Inductive result (A : Type) : Type :=
| Returned (a : A)
| Raised (e : exn).

Arguments Returned {A} a.
Arguments Raised {A} e.

Definition bind {A B : Type} (m : result A) (k : A -> result B) : result B :=
  match m with
  | Returned a => k a
  | Raised e => Raised e
  end.

Notation "x <- m ;; k" := (bind m (fun x => k))
  (at level 61, m at next level, right associativity).

(** ** Characters and strings *)

Definition code (c : ascii) : Z := Z.of_nat (nat_of_ascii c).

Definition between (lo hi n : Z) : bool := (lo <=? n) && (n <=? hi).

(** [c.isalpha()] for a code point below 256: the ASCII letters and the
    Latin-1 letters (general categories Lu, Ll and Lo). *)
Definition char_isalpha (c : ascii) : bool :=
  let n := code c in
  between 65 90 n || between 97 122 n
  || (n =? 170) || (n =? 181) || (n =? 186)
  || between 192 214 n || between 216 246 n || between 248 255 n.

(** [c.isdigit()] for a code point below 256: the decimal digits and the
    superscripts one, two and three. *)
Definition char_isdigit (c : ascii) : bool :=
  let n := code c in
  between 48 57 n || (n =? 178) || (n =? 179) || (n =? 185).

(** The ten decimal digits, as the regular expression class [\d] and the
    number parsers read them. *)
Definition char_isdecimal (c : ascii) : bool := between 48 57 (code c).

Definition digit_value (c : ascii) : Z := code c - 48.

Fixpoint string_forallb (p : ascii -> bool) (s : string) : bool :=
  match s with
  | EmptyString => true
  | String c rest => p c && string_forallb p rest
  end.

Definition nonempty (s : string) : bool :=
  match s with
  | EmptyString => false
  | String _ _ => true
  end.

(** [s.isalpha()] and [s.isdigit()]: false on the empty string. *)
Definition isalpha (s : string) : bool := nonempty s && string_forallb char_isalpha s.
Definition isdigit (s : string) : bool := nonempty s && string_forallb char_isdigit s.

(** [sep in s] for a one-character [sep]. *)
Fixpoint contains (sep : ascii) (s : string) : bool :=
  match s with
  | EmptyString => false
  | String c rest => Ascii.eqb c sep || contains sep rest
  end.

(** [s.split(sep)] for a one-character [sep]: never the empty list. *)
Fixpoint split (sep : ascii) (s : string) : list string :=
  match s with
  | EmptyString => [EmptyString]
  | String c rest =>
      if Ascii.eqb c sep then EmptyString :: split sep rest
      else match split sep rest with
           | seg :: segs => String c seg :: segs
           | [] => [String c EmptyString]
           end
  end.

Definition dash : ascii := "-"%char.

(** The month-column test of the loader (source lines 52-55):
    [len(col) == 6 and '-' in col and col.split('-')[0].isalpha()
     and col.split('-')[1].isdigit()]. *)
Definition is_month_column (col : string) : bool :=
  (Nat.eqb (String.length col) 6)
  && contains dash col
  && isalpha (nth 0 (split dash col) EmptyString)
  && isdigit (nth 1 (split dash col) EmptyString).

(** The shape the specification words describe: three alphabetic
    characters, the separator, two numeric characters. *)
Definition mmm_yy_shape (col : string) : bool :=
  match col with
  | String a (String b (String c (String d (String e (String f EmptyString))))) =>
      char_isalpha a && char_isalpha b && char_isalpha c
      && Ascii.eqb d dash
      && char_isdigit e && char_isdigit f
  | _ => false
  end.

(** ** Floating-point numbers *)

(** The integer nearest to [n / d], ties to the even one. *)
Definition round_div (n d : Z) : Z :=
  let f := n / d in
  match 2 * (n mod d) ?= d with
  | Lt => f
  | Gt => f + 1
  | Eq => if Z.even f then f else f + 1
  end.

Definition round_half_even (q : Q) : Z := round_div (Qnum q) (Zpos (Qden q)).

(** A float64 that is a number: a finite one, given by its exact value, or
    an infinity.  NaN is no number; where an operation can give NaN its
    result is an [option]. *)
Inductive float64 : Type :=
| Finite (q : Q)
| Infinite (negative : bool).

(** Whether [a / d] is at least [2 ^ 53] once divided by [2 ^ e]. *)
Definition scaled_ge_2_53 (a d e : Z) : bool :=
  if 0 <=? e then 2 ^ 53 * (d * 2 ^ e) <=? a
  else 2 ^ 53 * d <=? a * 2 ^ (- e).

(** The float64 nearest to a rational, ties to the even mantissa: the
    mantissa has 53 bits, the least exponent is -1074, and a result of
    [2 ^ 1024] or more is an infinity.  This is how a decimal literal and
    the result of every operation become a float. *)
Definition double (q : Q) : float64 :=
  let n := Qnum q in
  let d := Zpos (Qden q) in
  if n =? 0 then Finite 0
  else
    let a := Z.abs n in
    let e0 := Z.log2 a - Z.log2 d - 53 in
    let e1 := if scaled_ge_2_53 a d e0 then e0 + 1 else e0 in
    let e := Z.max e1 (- 1074) in
    let m := if 0 <=? e then round_div a (d * 2 ^ e)
             else round_div (a * 2 ^ (- e)) d in
    let s := if n <? 0 then (- 1) else 1 in
    if 0 <=? e then
      if 2 ^ 1024 <=? m * 2 ^ e then Infinite (n <? 0)
      else Finite (inject_Z (s * m * 2 ^ e))
    else Finite (Qmake (s * m) (Z.to_pos (2 ^ (- e)))).

Definition f_zero : float64 := Finite 0.

(** [- x] and [abs(x)]. *)
Definition f_neg (x : float64) : float64 :=
  match x with
  | Finite q => Finite (- q)
  | Infinite negative => Infinite (negb negative)
  end.

Definition f_abs (x : float64) : float64 :=
  match x with
  | Finite q => Finite (Qabs q)
  | Infinite _ => Infinite false
  end.

(** [x < y] and [x == y]. *)
Definition f_ltb (x y : float64) : bool :=
  match x, y with
  | Finite p, Finite q => negb (Qle_bool q p)
  | Finite _, Infinite negative => negb negative
  | Infinite negative, Finite _ => negative
  | Infinite negative, Infinite negative' => negative && negb negative'
  end.

Definition f_eqb (x y : float64) : bool :=
  match x, y with
  | Finite p, Finite q => Qeq_bool p q
  | Infinite negative, Infinite negative' => Bool.eqb negative negative'
  | _, _ => false
  end.

(** [x + y]: [None] is NaN, the sum of the two infinities. *)
Definition f_add (x y : float64) : option float64 :=
  match x, y with
  | Finite p, Finite q => Some (double (p + q))
  | Finite _, Infinite negative => Some (Infinite negative)
  | Infinite negative, Finite _ => Some (Infinite negative)
  | Infinite negative, Infinite negative' =>
      if Bool.eqb negative negative' then Some (Infinite negative) else None
  end.

Definition is_finite (x : float64) : bool :=
  match x with
  | Finite _ => true
  | Infinite _ => false
  end.

(** ** Cell values and data frames *)

(** What a cell of a data frame can hold: text, a float, an integer of the
    nullable [Int64] type, the float [NaN], or [pd.NA]. *)
Inductive value : Type :=
| VStr (s : string)
| VFloat (x : float64)
| VInt (z : Z)
| VNaN
| VNA.

(** The two operations of pandas and Python the script relies on and that
    are not written out here: reading a number from a text cell
    ([pd.to_numeric], [None] when the text is not a number, an infinity for
    a text such as 'inf') and [str] of a float. *)
Class Pandas : Type := {
  to_numeric_text : string -> option float64;
  float_str : float64 -> string
}.

(** A row as [iterrows] yields it: the labels with their values. *)
Definition Series : Type := list (string * value).

Record DataFrame : Type := {
  columns : list string;
  rows : list Series
}.

(** [row.get(key, default)]. *)
Fixpoint series_get (row : Series) (key : string) (default : value) : value :=
  match row with
  | [] => default
  | (k, v) :: rest => if String.eqb k key then v else series_get rest key default
  end.

Definition in_columns (key : string) (cols : list string) : bool :=
  existsb (String.eqb key) cols.

Definition set_label (key : string) (v : value) (row : Series) : Series :=
  map (fun kv => if String.eqb (fst kv) key then (fst kv, v) else kv) row.

(** [df[key] = vals]: replaces the column when the label exists, appends a
    new last column otherwise. *)
Definition setitem (df : DataFrame) (key : string) (vals : list value) : DataFrame :=
  if in_columns key (columns df) then
    {| columns := columns df;
       rows := map (fun rv => set_label key (snd rv) (fst rv)) (combine (rows df) vals) |}
  else
    {| columns := (columns df ++ [key])%list;
       rows := map (fun rv => (fst rv ++ [(key, snd rv)])%list)
                   (combine (rows df) vals) |}.

(** [df[key]] read as a list of values. *)
Definition getitem (df : DataFrame) (key : string) : list value :=
  map (fun row => series_get row key VNaN) (rows df).

(** [df[key] = v] with a scalar [v]. *)
Definition setitem_scalar (df : DataFrame) (key : string) (v : value) : DataFrame :=
  setitem df key (repeat v (List.length (rows df))).

(** ** Reading the file *)

(** The texts [read_csv] reads as a missing value. *)
Definition na_values : list string :=
  [""; "#N/A"; "#N/A N/A"; "#NA"; "-1.#IND"; "-1.#QNAN"; "-NaN"; "-nan";
   "1.#IND"; "1.#QNAN"; "<NA>"; "N/A"; "NA"; "NULL"; "NaN"; "None"; "n/a";
   "nan"; "null"].

Definition read_cell (text : string) : value :=
  if existsb (String.eqb text) na_values then VNaN else VStr text.

(** The row of a data line under the labels of the header: a line with
    fewer cells than there are labels is filled with missing values.
    [read_csv] below hands over no more cells than there are labels. *)
Fixpoint read_row (header : list string) (cells : list string) : Series :=
  match header with
  | [] => []
  | label :: labels =>
      match cells with
      | [] => (label, VNaN) :: read_row labels []
      | cell :: cells' => (label, read_cell cell) :: read_row labels cells'
      end
  end.

(** The width of the data lines of a file: that of the wider of the header
    and the first data line. *)
Definition line_width (header : list string) (body : list (list string)) : nat :=
  Nat.max (List.length header) (List.length (hd [] body)).

(** Where the first data line is wider than the header, the leading cells
    of every line, as many as it has too many, are the row labels and no
    column of the frame. *)
Definition leading_cells (header : list string) (body : list (list string)) : nat :=
  (line_width header body - List.length header)%nat.

(** The row read from one data line of a file. *)
Definition read_line (header : list string) (body : list (list string))
    (cells : list string) : Series :=
  read_row header (skipn (leading_cells header body) cells).

(** [pd.read_csv(file_path, skiprows=n)]: the first line left after the
    skipped ones is the header.  A data line with more cells than the width
    of the data lines is a [ParserError], a shorter one is filled with
    missing values. *)
Definition read_csv (file : option (list (list string))) (skiprows : nat)
  : result DataFrame :=
  match file with
  | None => Raised FileNotFoundError
  | Some lines =>
      match skipn skiprows lines with
      | [] => Raised EmptyDataError
      | header :: body =>
          if forallb (fun cells => (List.length cells <=? line_width header body)%nat) body
          then Returned {| columns := header; rows := map (read_line header body) body |}
          else Raised ParserError
      end
  end.

(** [df.iloc[-1, 0]]. *)
Definition iloc_last_first (df : DataFrame) : result value :=
  match rev (rows df) with
  | [] => Raised IndexError
  | row :: _ =>
      match row with
      | [] => Raised IndexError
      | (_, v) :: _ => Returned v
      end
  end.

(** [v == text] for a cell [v]. *)
Definition value_eq_text (v : value) (text : string) : bool :=
  match v with
  | VStr s => String.eqb s text
  | _ => false
  end.

(** [df.drop(df.tail(1).index)]. *)
Definition drop_tail (df : DataFrame) : DataFrame :=
  {| columns := columns df; rows := removelast (rows df) |}.

(** The renaming table of source lines 32-36. *)
Definition rename_label (label : string) : string :=
  if String.eqb label "Items" then "Prepayment Item"
  else if String.eqb label "Invoice number" then "Reference"
  else if String.eqb label "Invoice amount" then "Total Amount"
  else label.

Definition rename_row (row : Series) : Series :=
  map (fun kv => (rename_label (fst kv), snd kv)) row.

Definition rename (df : DataFrame) : DataFrame :=
  {| columns := map rename_label (columns df);
     rows := map rename_row (rows df) |}.

(** ** Numeric coercion *)

(** [pd.to_numeric(..., errors='coerce')] on one cell. *)
Definition to_numeric `{Pandas} (v : value) : option float64 :=
  match v with
  | VStr s => to_numeric_text s
  | VFloat x => Some x
  | VInt z => Some (Finite (inject_Z z))
  | VNaN | VNA => None
  end.

(** Whether a float is a whole number, and which; an infinity is none. *)
Definition is_integral (x : float64) : bool :=
  match x with
  | Finite q => Qnum q mod Zpos (Qden q) =? 0
  | Infinite _ => false
  end.

Definition int_of (x : float64) : Z :=
  match x with
  | Finite q => Qnum q / Zpos (Qden q)
  | Infinite _ => 0
  end.
Definition in_int64 (z : Z) : bool := (- 2 ^ 63 <=? z) && (z <? 2 ^ 63).

(** One cell of [.astype('Int64')]: a missing number becomes [pd.NA], a
    whole number in range an integer, anything else is refused. *)
Definition cast_Int64 (n : option float64) : result value :=
  match n with
  | None => Returned VNA
  | Some q =>
      if is_integral q && in_int64 (int_of q) then Returned (VInt (int_of q))
      else Raised TypeError
  end.

Fixpoint mapM {A B : Type} (f : A -> result B) (l : list A) : result (list B) :=
  match l with
  | [] => Returned []
  | a :: rest => b <- f a ;; bs <- mapM f rest ;; Returned (b :: bs)
  end.

(** [.astype('Int64')] on a column: one refused cell refuses the column. *)
Definition astype_Int64 (col : list (option float64)) : result (list value) :=
  mapM cast_Int64 col.

(** [.fillna(0)] after [pd.to_numeric] on one cell. *)
Definition numeric_fillna0 `{Pandas} (v : value) : value :=
  match to_numeric v with
  | Some x => VFloat x
  | None => VFloat f_zero
  end.

(** Source lines 39-46: the reference column.  With two columns of that
    name [df['Reference']] is a frame, which [pd.to_numeric] refuses. *)
Definition coerce_reference `{Pandas} (df : DataFrame) : result DataFrame :=
  match count_occ string_dec (columns df) "Reference" with
  | O => Returned (setitem_scalar df "Reference" (VStr "N/A"))
  | S O =>
      ints <- astype_Int64 (map to_numeric (getitem df "Reference")) ;;
      Returned (setitem df "Reference" ints)
  | S (S _) => Raised TypeError
  end.

(** Source lines 61-62: one month column. *)
Definition coerce_month `{Pandas} (df : DataFrame) (col : string) : DataFrame :=
  setitem df col (map numeric_fillna0 (getitem df col)).

(** ** The loader *)

(** Source lines 22-36: read the file past its two leading lines, drop a
    last row whose first cell is ['Balance'], rename the columns. *)
Definition read_schedule (file : option (list (list string))) : result DataFrame :=
  df <- read_csv file 2 ;;
  cell <- iloc_last_first df ;;
  let df := if value_eq_text cell "Balance" then drop_tail df else df in
  Returned (rename df).

(** Source lines 39-75: the reference column, the month columns and the
    item column. *)
Definition normalise_schedule `{Pandas} (df : DataFrame)
  : result (DataFrame * list string) :=
  df <- coerce_reference df ;;
  let month_columns := filter is_month_column (columns df) in
  _ <- (match month_columns with
        | [] => Raised ValueError
        | _ :: _ => Returned tt
        end) ;;
  let df := fold_left coerce_month month_columns df in
  let df := if in_columns "Prepayment Item" (columns df) then df
            else setitem_scalar df "Prepayment Item" (VStr "Generic Item") in
  Returned (df, month_columns).

(** The body of the [try] block of [load_prepayment_schedule]. *)
Definition load_body `{Pandas} (file : option (list (list string)))
  : result (DataFrame * list string) :=
  df <- read_schedule file ;;
  normalise_schedule df.

(** [load_prepayment_schedule]: every [except] clause ends in
    [return None, None]; a [ParserError] is a [ValueError]. *)
Definition load_prepayment_schedule `{Pandas} (file : option (list (list string)))
  : option (DataFrame * list string) :=
  match load_body file with
  | Returned r => Some r
  | Raised FileNotFoundError => None
  | Raised EmptyDataError => None
  | Raised ValueError => None
  | Raised ParserError => None
  | Raised _ => None
  end.

(** ** Python conversions used by the generator *)

(** [str(z)] for an integer [z]. *)
Definition str_int (z : Z) : string := NilZero.string_of_int (Z.to_int z).

Fixpoint decimal_value (s : string) (acc : Z) : Z :=
  match s with
  | EmptyString => acc
  | String c rest => decimal_value rest (10 * acc + digit_value c)
  end.

Definition isdecimal (s : string) : bool :=
  nonempty s && string_forallb char_isdecimal s.

(** [int(s)] for a text [s]: an optional sign and decimal digits.  (Python
    also reads blanks around the number and underscores inside it; the only
    text the loader ever stores in a reference is ['N/A'].) *)
Definition int_of_text (s : string) : result Z :=
  match s with
  | String "-" rest =>
      if isdecimal rest then Returned (- decimal_value rest 0) else Raised ValueError
  | String "+" rest =>
      if isdecimal rest then Returned (decimal_value rest 0) else Raised ValueError
  | _ => if isdecimal s then Returned (decimal_value s 0) else Raised ValueError
  end.

(** [int(v)]. *)
Definition py_int (v : value) : result Z :=
  match v with
  | VStr s => int_of_text s
  | VFloat (Finite q) => Returned (Z.quot (Qnum q) (Zpos (Qden q)))
  | VFloat (Infinite _) => Raised OverflowError
  | VInt z => Returned z
  | VNaN => Raised ValueError
  | VNA => Raised TypeError
  end.

(** [pd.notna(v)]. *)
Definition notna (v : value) : bool :=
  match v with
  | VNaN | VNA => false
  | _ => true
  end.

(** A value inside an f-string. *)
Definition format_value `{Pandas} (v : value) : string :=
  match v with
  | VStr s => s
  | VFloat q => float_str q
  | VInt z => str_int z
  | VNaN => "nan"
  | VNA => "<NA>"
  end.

(** ** Amounts *)

(** [round(x, 2)] for a float: the decimal with two places nearest to the
    exact value of [x], ties to the even one, then the float nearest to
    that decimal; an infinity is returned as it is. *)
Definition round_cents (q : Q) : Q := Qmake (round_half_even (q * 100)) 100.

Definition py_round2 (x : float64) : float64 :=
  match x with
  | Finite q => double (round_cents q)
  | Infinite _ => x
  end.

(** The negligible-amount bound of source line 144: the float [0.005]. *)
Definition threshold : float64 := double (5 # 1000).

(** The number a cell holds for [abs], [round] and [>]: none for NaN, on
    which the comparison of source line 144 is false, and the integer
    itself for an integer.  Text has no absolute value and a comparison with
    [pd.NA] has no truth value: both raise [TypeError]. *)
Definition amount_number (v : value) : result (option float64) :=
  match v with
  | VFloat x => Returned (Some x)
  | VInt z => Returned (Some (Finite (inject_Z z)))
  | VNaN => Returned None
  | VStr _ => Raised TypeError
  | VNA => Raised TypeError
  end.

(** [abs(x) > 0.005]. *)
Definition exceeds_threshold (x : float64) : bool := f_ltb threshold (f_abs x).

(** [round(v, 2)] for the cell [v] whose number is [x]: an integer is its
    own rounding, exactly. *)
Definition round2 (v : value) (x : float64) : float64 :=
  match v with
  | VInt _ => x
  | _ => py_round2 x
  end.

(** [abs(round(v, 2))]. *)
Definition abs_round2 (v : value) (x : float64) : float64 := f_abs (round2 v x).

(** ** Dates *)

(** The text after the year and the dash, matched by the alternatives
    [1[0-2]|0[1-9]|[1-9]] in that order; what is left is returned too. *)
Definition match_month (s : string) : option (Z * string) :=
  match s with
  | EmptyString => None
  | String c rest =>
      if Ascii.eqb c "1" then
        match rest with
        | String c' rest' =>
            if between 48 50 (code c') then Some (10 + digit_value c', rest')
            else Some (1, rest)
        | EmptyString => Some (1, rest)
        end
      else if Ascii.eqb c "0" then
        match rest with
        | String c' rest' =>
            if between 49 57 (code c') then Some (digit_value c', rest') else None
        | EmptyString => None
        end
      else if between 49 57 (code c) then Some (digit_value c, rest)
      else None
  end.

(** [datetime.strptime(s, '%Y-%m')]: four digits, a dash, the month, and
    nothing after it; year 0 is no date. *)
Definition strptime_Y_m (s : string) : result (Z * Z) :=
  match s with
  | String a (String b (String c (String d (String sep rest)))) =>
      if string_forallb char_isdecimal (String a (String b (String c (String d ""))))
         && Ascii.eqb sep dash
      then
        match match_month rest with
        | Some (m, EmptyString) =>
            let y := decimal_value (String a (String b (String c (String d "")))) 0 in
            if y =? 0 then Raised ValueError else Returned (y, m)
        | _ => Raised ValueError
        end
      else Raised ValueError
  | _ => Raised ValueError
  end.

Definition digit_char (d : Z) : ascii := ascii_of_nat (48 + Z.to_nat d).

(** A number in exactly [width] decimal digits, zeros in front. *)
Fixpoint zero_pad (width : nat) (n : Z) : string :=
  match width with
  | O => ""
  | S w => zero_pad w (n / 10) ++ String (digit_char (n mod 10)) ""
  end.

(** [%b], in the C locale. *)
Definition month_abbr (m : Z) : string :=
  nth (Z.to_nat (m - 1))
      ["Jan"; "Feb"; "Mar"; "Apr"; "May"; "Jun";
       "Jul"; "Aug"; "Sep"; "Oct"; "Nov"; "Dec"] "".

(** [strftime('%b-%y')]. *)
Definition strftime_b_y (y m : Z) : string :=
  month_abbr m ++ "-" ++ zero_pad 2 (y mod 100).

Definition isleap (y : Z) : bool :=
  (y mod 4 =? 0) && (negb (y mod 100 =? 0) || (y mod 400 =? 0)).

(** [calendar.monthrange(y, m)[1]]: the number of days of the month. *)
Definition monthrange (y m : Z) : Z :=
  if m =? 2 then (if isleap y then 29 else 28)
  else if (m =? 4) || (m =? 6) || (m =? 9) || (m =? 11) then 30
  else 31.

(** The day of [datetime(y, m, 1) + relativedelta(day=31)]. *)
Definition relativedelta_day31 (y m : Z) : Z := Z.min (monthrange y m) 31.

(** [strftime('%d/%m/%Y')], the year in four digits as the Python
    documentation gives it. *)
Definition strftime_d_m_Y (y m d : Z) : string :=
  zero_pad 2 d ++ "/" ++ zero_pad 2 m ++ "/" ++ zero_pad 4 y.

(** ** The generator *)

Record PostingEntry : Type := {
  Date : string;
  Description : string;
  Reference : string;
  Account : string;
  Amount : float64
}.

(** Source line 134:
    [str(int(raw_reference)) if pd.notna(raw_reference) else 'N/A']. *)
Definition reference_text (raw_reference : value) : result string :=
  if notna raw_reference
  then z <- py_int raw_reference ;; Returned (str_int z)
  else Returned "N/A".

(** The body of the [for] loop of source lines 128-164 for one row: the
    entries it appends. *)
Definition row_entries `{Pandas} (date target_month_col_name : string) (row : Series)
  : result (list PostingEntry) :=
  let prepayment_item := series_get row "Prepayment Item" (VStr "Unknown Item") in
  let raw_reference := series_get row "Reference" VNA in
  reference_str <- reference_text raw_reference ;;
  let monthly_amortization := series_get row target_month_col_name (VInt 0) in
  number <- amount_number monthly_amortization ;;
  match number with
  | None => Returned []
  | Some x =>
      if exceeds_threshold x then
        let debit_amount := abs_round2 monthly_amortization x in
        Returned
          [ {| Date := date;
               Description :=
                 "Prepayment amortisation for " ++ format_value prepayment_item;
               Reference := reference_str;
               Account := "EXP001";
               Amount := debit_amount |};
            {| Date := date;
               Description :=
                 "Prepayment amortisation for " ++ format_value prepayment_item;
               Reference := reference_str;
               Account := "PRE001";
               Amount := f_neg debit_amount |} ]
      else Returned []
  end.

(** The loop itself, [entries] being the list built so far. *)
Fixpoint iterrows_loop `{Pandas} (date target_month_col_name : string)
    (todo : list Series) (entries : list PostingEntry) : result (list PostingEntry) :=
  match todo with
  | [] => Returned entries
  | row :: rest =>
      new <- row_entries date target_month_col_name row ;;
      iterrows_loop date target_month_col_name rest (entries ++ new)%list
  end.

(** [generate_accounting_entries]. *)
Definition generate_accounting_entries `{Pandas}
    (schedule_df : DataFrame) (month_columns : list string) (target_month_str : string)
  : result (list PostingEntry) :=
  match strptime_Y_m target_month_str with
  | Raised ValueError => Returned []
  | Raised e => Raised e
  | Returned (y, m) =>
      let target_month_col_name := strftime_b_y y m in
      let accounting_entry_date := strftime_d_m_Y y m (relativedelta_day31 y m) in
      if negb (in_columns target_month_col_name month_columns) then Returned []
      else iterrows_loop accounting_entry_date target_month_col_name
                         (rows schedule_df) []
  end.

(** ** An implementation of the interface for the examples *)

(** The exact value of a plain decimal literal: an optional sign, digits,
    and an optional point with more digits. *)
Definition decimal_value_of (s : string) : option Q :=
  let '(negative, body) :=
    match s with
    | String "-" rest => (true, rest)
    | String "+" rest => (false, rest)
    | _ => (false, s)
    end in
  let sign := if negative then (-1) else 1 in
  match split "." body with
  | [whole] =>
      if isdecimal whole then Some (inject_Z (sign * decimal_value whole 0)) else None
  | [whole; fraction] =>
      if string_forallb char_isdecimal whole && string_forallb char_isdecimal fraction
         && (nonempty whole || nonempty fraction)
      then Some (Qmake (sign * decimal_value (whole ++ fraction) 0)
                       (Z.to_pos (10 ^ Z.of_nat (String.length fraction))))
      else None
  | _ => None
  end.

(** A text as a float: the float nearest to a decimal literal, or an
    infinity. *)
Definition decimal_literal (s : string) : option float64 :=
  if existsb (String.eqb s) ["inf"; "+inf"; "Inf"; "+Inf"; "Infinity"; "infinity"]
  then Some (Infinite false)
  else if existsb (String.eqb s) ["-inf"; "-Inf"; "-Infinity"; "-infinity"]
  then Some (Infinite true)
  else option_map double (decimal_value_of s).

(** A float whose value is a whole number, as Python shows it; the
    examples show no other float. *)
Definition whole_float_str (x : float64) : string :=
  match x with
  | Finite q => str_int (Z.quot (Qnum q) (Zpos (Qden q))) ++ ".0"
  | Infinite negative => if negative then "-inf" else "inf"
  end.

#[export] Instance plain_pandas : Pandas := {|
  to_numeric_text := decimal_literal;
  float_str := whole_float_str
|}.

(** ** Vocabulary of the properties *)

(** A reference as the loader stores it when the source has the column: a
    whole number or the missing marker. *)
Definition reference_typed (v : value) : bool :=
  match v with
  | VInt _ | VNA => true
  | _ => false
  end.

Definition is_float (v : value) : bool :=
  match v with
  | VFloat _ => true
  | _ => false
  end.

(** A row of a schedule whose reference and whose amount for the month
    [label] have the types the loader gives them. *)
Definition is_schedule_row (label : string) (row : Series) : bool :=
  reference_typed (series_get row "Reference" VNA)
  && is_float (series_get row label (VInt 0)).

(** A debit line and its credit line: the credit amount is the debit
    amount negated, so the two add up to zero when the amount is finite;
    the two infinities add up to NaN. *)
Definition balanced_pair (debit credit : PostingEntry) : Prop :=
  Account debit = "EXP001" /\ Account credit = "PRE001"
  /\ Account debit <> Account credit
  /\ Amount credit = f_neg (Amount debit)
  /\ f_ltb (Amount debit) f_zero = false
  /\ (is_finite (Amount debit) = true ->
      f_add (Amount debit) (Amount credit) = Some f_zero)
  /\ (is_finite (Amount debit) = false ->
      f_add (Amount debit) (Amount credit) = None)
  /\ Date debit = Date credit
  /\ Description debit = Description credit
  /\ Reference debit = Reference credit.

(** What one row contributes to the postings: nothing for a negligible
    amount, one balanced pair otherwise. *)
Definition row_postings (label : string) (row : Series) (es : list PostingEntry)
  : Prop :=
  exists x, series_get row label (VInt 0) = VFloat x
    /\ (exceeds_threshold x = false -> es = [])
    /\ (exceeds_threshold x = true ->
        exists debit credit, es = [debit; credit] /\ balanced_pair debit credit).

(** The amounts of what one row contributes: the debit is the absolute
    value of the rounded amount, which is the rounded absolute value; for a
    finite amount it is the float nearest to a number of cents that is at
    most half a cent away from the magnitude. *)
Definition row_amounts (label : string) (row : Series) (es : list PostingEntry)
  : Prop :=
  exists x, series_get row label (VInt 0) = VFloat x
    /\ (exceeds_threshold x = false -> es = [])
    /\ (exceeds_threshold x = true ->
        exists debit credit, es = [debit; credit]
          /\ Amount debit = f_abs (py_round2 x)
          /\ Amount debit = py_round2 (f_abs x)
          /\ (forall q, x = Finite q ->
                Amount debit = double (round_cents (Qabs q))
                /\ (Qabs (round_cents (Qabs q) - Qabs q) <= 1 # 200)%Q)
          /\ Amount credit = f_neg (Amount debit)).

(** The values of all rows under one label. *)
Definition column_values (df : DataFrame) (key : string) (default : value)
  : list value :=
  map (fun row => series_get row key default) (rows df).

(** Every row of a frame carries the labels of the frame, in order. *)
Definition aligned (df : DataFrame) : Prop :=
  Forall (fun row => map fst row = columns df) (rows df).





(** How a reference cell is stored and later shown: a number as that whole
    number and its plain digits, anything else as the missing marker and
    ['N/A']. *)
Definition reference_stored `{Pandas} (cell stored : value) : Prop :=
  (forall x, to_numeric cell = Some x ->
     exists q z, x = Finite q
       /\ (inject_Z z == q)%Q
       /\ stored = VInt z
       /\ reference_text stored = Returned (str_int z)
       /\ contains "." (str_int z) = false)
  /\ (to_numeric cell = None ->
      stored = VNA /\ reference_text stored = Returned "N/A").

(** How the postings of a record show the reference cell it was read
    from: a number as its plain digits, without a decimal point, anything
    else as ['N/A']. *)
Definition reference_posted `{Pandas} (cell : value) (es : list PostingEntry) : Prop :=
  (forall x, to_numeric cell = Some x ->
     exists q z, x = Finite q
       /\ (inject_Z z == q)%Q
       /\ Forall (fun e => Reference e = str_int z
                           /\ contains "." (Reference e) = false) es)
  /\ (to_numeric cell = None -> Forall (fun e => Reference e = "N/A") es).

(** The last steps of the loader, after the reference column (source
    lines 61-67). *)
Definition finish_schedule `{Pandas} (df : DataFrame) (month_columns : list string)
  : DataFrame :=
  let df := fold_left coerce_month month_columns df in
  if in_columns "Prepayment Item" (columns df) then df
  else setitem_scalar df "Prepayment Item" (VStr "Generic Item").

(** A period as the specification writes it: the year in four digits, a
    dash, the month in two digits. *)
Definition period_text (y m : Z) : string := zero_pad 4 y ++ "-" ++ zero_pad 2 m.

(** The posting date the specification asks for: the last day of the
    month, the month and the year, as dd/mm/yyyy. *)
Definition month_end_text (y m : Z) : string :=
  zero_pad 2 (monthrange y m) ++ "/" ++ zero_pad 2 m ++ "/" ++ zero_pad 4 y.

(** ** A schedule to run the examples on *)

Definition example_file : option (list (list string)) :=
  Some [ ["Prepayment schedule"];
         ["Financial year 2024"];
         ["Items"; "Invoice number"; "Invoice amount"; "Jan-24"; "Feb-24"];
         ["Insurance"; "1001"; "1200"; "-100.00"; "-100.004"];
         ["Rent"; "N/A"; "600"; "0.003"; ""];
         ["Licence"; "46248"; "60"; "0.006"; "none"];
         ["Hosting"; ""; "240"; "-20"; "-20"];
         ["Balance"; ""; ""; "-119.991"; "-120.004"] ].

(** The example after the reading stage. *)
Definition example_raw : DataFrame :=
  {| columns := ["Prepayment Item"; "Reference"; "Total Amount"; "Jan-24"; "Feb-24"];
     rows :=
       [ [("Prepayment Item", VStr "Insurance"); ("Reference", VStr "1001");
          ("Total Amount", VStr "1200");
          ("Jan-24", VStr "-100.00"); ("Feb-24", VStr "-100.004")];
         [("Prepayment Item", VStr "Rent"); ("Reference", VNaN);
          ("Total Amount", VStr "600");
          ("Jan-24", VStr "0.003"); ("Feb-24", VNaN)];
         [("Prepayment Item", VStr "Licence"); ("Reference", VStr "46248");
          ("Total Amount", VStr "60");
          ("Jan-24", VStr "0.006"); ("Feb-24", VStr "none")];
         [("Prepayment Item", VStr "Hosting"); ("Reference", VNaN);
          ("Total Amount", VStr "240");
          ("Jan-24", VStr "-20"); ("Feb-24", VStr "-20")] ] |}.

(** The example as loaded. *)
Definition example_frame : DataFrame :=
  {| columns := ["Prepayment Item"; "Reference"; "Total Amount"; "Jan-24"; "Feb-24"];
     rows :=
       [ [("Prepayment Item", VStr "Insurance"); ("Reference", VInt 1001);
          ("Total Amount", VStr "1200");
          ("Jan-24", VFloat (double (-10000 # 100))); ("Feb-24", VFloat (double (-100004 # 1000)))];
         [("Prepayment Item", VStr "Rent"); ("Reference", VNA);
          ("Total Amount", VStr "600");
          ("Jan-24", VFloat (double (3 # 1000))); ("Feb-24", VFloat f_zero)];
         [("Prepayment Item", VStr "Licence"); ("Reference", VInt 46248);
          ("Total Amount", VStr "60");
          ("Jan-24", VFloat (double (6 # 1000))); ("Feb-24", VFloat f_zero)];
         [("Prepayment Item", VStr "Hosting"); ("Reference", VNA);
          ("Total Amount", VStr "240");
          ("Jan-24", VFloat (double (-20 # 1))); ("Feb-24", VFloat (double (-20 # 1)))] ] |}.

Definition example_months : list string := ["Jan-24"; "Feb-24"].

(** A schedule with a reference that is a number but not a whole one, and
    the same with a summary line. *)
Definition fractional_file : option (list (list string)) :=
  Some [ ["Prepayment schedule"];
         ["Financial year 2024"];
         ["Items"; "Invoice number"; "Jan-24"];
         ["Insurance"; "1001"; "-100.00"];
         ["Rent"; "462.5"; "-50.00"] ].


(** A schedule with the reference 46248 beside a fractional one. *)
Definition mixed_reference_file : option (list (list string)) :=
  Some [ ["Prepayment schedule"];
         ["Financial year 2024"];
         ["Items"; "Invoice number"; "Jan-24"];
         ["Licence"; "46248"; "-100.00"];
         ["Rent"; "462.5"; "-50.00"] ].

(** A schedule with an amount that reads as an infinite float. *)
Definition infinite_file : option (list (list string)) :=
  Some [ ["Prepayment schedule"];
         ["Financial year 2024"];
         ["Items"; "Invoice number"; "Jan-24"];
         ["Insurance"; "1001"; "inf"] ].

Definition infinite_frame : DataFrame :=
  {| columns := ["Prepayment Item"; "Reference"; "Jan-24"];
     rows :=
       [ [("Prepayment Item", VStr "Insurance"); ("Reference", VInt 1001);
          ("Jan-24", VFloat (Infinite false))] ] |}.

(** A schedule whose second item line has one cell more than the header
    and the line before it, and a schedule all of whose lines after the
    header have one cell more than the header. *)
Definition overlong_file : option (list (list string)) :=
  Some [ ["Prepayment schedule"];
         ["Financial year 2024"];
         ["Items"; "Invoice number"; "Jan-24"];
         ["Insurance"; "1001"; "-100.00"];
         ["Rent"; "1002"; "-50.00"; "paid"];
         ["Balance"; ""; "-150.00"] ].


(** A schedule without a reference column. *)
Definition unreferenced_file : option (list (list string)) :=
  Some [ ["Prepayment schedule"];
         ["Financial year 2024"];
         ["Items"; "Invoice amount"; "Jan-24"];
         ["Insurance"; "1200"; "-100.00"] ].

Definition unreferenced_frame : DataFrame :=
  {| columns := ["Prepayment Item"; "Total Amount"; "Jan-24"; "Reference"];
     rows :=
       [ [("Prepayment Item", VStr "Insurance"); ("Total Amount", VStr "1200");
          ("Jan-24", VFloat (double (-10000 # 100))); ("Reference", VStr "N/A")] ] |}.

(** A schedule without a month column. *)
Definition monthless_file : option (list (list string)) :=
  Some [ ["Prepayment schedule"];
         ["Financial year 2024"];
         ["Items"; "Invoice number"; "Total"];
         ["Insurance"; "1001"; "-100.00"] ].

(** ** The program *)

(** What [main] meets outside itself: the file 'Prepayment assignment.csv',
    the month typed at the prompt, and whether [to_csv] can write. *)
Record environment : Type := {
  csv_file : option (list (list string));
  typed_month : string;
  can_write : bool
}.

(** How a run of [main] ends, by its last message: the table shown and
    saved under a file name, the table shown and not saved, no entry to
    show, or no schedule to work on. *)
Inductive outcome : Type :=
| EntriesSaved (output_filename : string) (table : list PostingEntry)
| EntriesNotSaved (table : list PostingEntry)
| NoEntriesGenerated
| ScheduleNotLoaded.

(** [main] (source lines 168-206).  An exception of the generator is not
    caught here; one of [to_csv] is. *)
Definition main `{Pandas} (env : environment) : result outcome :=
  let target_month_input := typed_month env in
  match load_prepayment_schedule (csv_file env) with
  | Some (schedule_df, month_columns) =>
      accounting_entries <-
        generate_accounting_entries schedule_df month_columns target_month_input ;;
      match accounting_entries with
      | _ :: _ =>
          let output_filename :=
            "accounting_entries_" ++ target_month_input ++ ".csv" in
          if can_write env
          then Returned (EntriesSaved output_filename accounting_entries)
          else Returned (EntriesNotSaved accounting_entries)
      | [] => Returned NoEntriesGenerated
      end
  | None => Returned ScheduleNotLoaded
  end.

(** ** Vocabulary of the further properties *)

(** The segments of a split put together again. *)
Fixpoint join (sep : ascii) (segs : list string) : string :=
  match segs with
  | [] => ""
  | seg :: rest =>
      match rest with
      | [] => seg
      | _ :: _ => seg ++ String sep (join sep rest)
      end
  end.



(** A list of postings made of balanced pairs, debit first. *)
Inductive ledger : list PostingEntry -> Prop :=
| ledger_nil : ledger []
| ledger_pair (debit credit : PostingEntry) (rest : list PostingEntry) :
    balanced_pair debit credit -> ledger rest -> ledger (debit :: credit :: rest).

(** A row with the sign of its amount under [label] changed. *)
Definition negate_value (v : value) : value :=
  match v with
  | VFloat x => VFloat (f_neg x)
  | VInt z => VInt (- z)
  | _ => v
  end.

Definition negate_amount (label : string) (row : Series) : Series :=
  map (fun kv => if String.eqb (fst kv) label then (fst kv, negate_value (snd kv))
                 else kv) row.

(** An entry without its date. *)
Definition without_date (e : PostingEntry) : string * string * string * float64 :=
  (Description e, Reference e, Account e, Amount e).

Definition result_map {A B : Type} (f : A -> B) (r : result A) : result B :=
  match r with
  | Returned a => Returned (f a)
  | Raised e => Raised e
  end.

(** Two rows in which the generator reads the same item, reference and
    amount for [label]. *)
Definition same_inputs (label : string) (row row' : Series) : Prop :=
  series_get row "Prepayment Item" (VStr "Unknown Item")
  = series_get row' "Prepayment Item" (VStr "Unknown Item")
  /\ series_get row "Reference" VNA = series_get row' "Reference" VNA
  /\ series_get row label (VInt 0) = series_get row' label (VInt 0).

(** The characters of a period: digits and the dash. *)
Definition period_char (c : ascii) : bool := char_isdecimal c || Ascii.eqb c dash.

(** The lines of the example, its header and its data lines. *)
Definition example_header : list string :=
  ["Items"; "Invoice number"; "Invoice amount"; "Jan-24"; "Feb-24"].

Definition example_body : list (list string) :=
  [ ["Insurance"; "1001"; "1200"; "-100.00"; "-100.004"];
    ["Rent"; "N/A"; "600"; "0.003"; ""];
    ["Licence"; "46248"; "60"; "0.006"; "none"];
    ["Hosting"; ""; "240"; "-20"; "-20"];
    ["Balance"; ""; ""; "-119.991"; "-120.004"] ].

Definition example_lines : list (list string) :=
  ["Prepayment schedule"] :: ["Financial year 2024"] :: example_header :: example_body.

(** The postings of the example for January 2024. *)
Definition january_postings : list PostingEntry :=
  [ {| Date := "31/01/2024"; Description := "Prepayment amortisation for Insurance";
       Reference := "1001"; Account := "EXP001"; Amount := double (10000 # 100) |};
    {| Date := "31/01/2024"; Description := "Prepayment amortisation for Insurance";
       Reference := "1001"; Account := "PRE001"; Amount := f_neg (double (10000 # 100)) |};
    {| Date := "31/01/2024"; Description := "Prepayment amortisation for Licence";
       Reference := "46248"; Account := "EXP001"; Amount := double (1 # 100) |};
    {| Date := "31/01/2024"; Description := "Prepayment amortisation for Licence";
       Reference := "46248"; Account := "PRE001"; Amount := f_neg (double (1 # 100)) |};
    {| Date := "31/01/2024"; Description := "Prepayment amortisation for Hosting";
       Reference := "N/A"; Account := "EXP001"; Amount := double (2000 # 100) |};
    {| Date := "31/01/2024"; Description := "Prepayment amortisation for Hosting";
       Reference := "N/A"; Account := "PRE001"; Amount := f_neg (double (2000 # 100)) |} ].

(** * Properties *)

(** ** Rounding *)

Lemma round_div_opp (n d : Z) : 0 < d -> round_div (- n) d = - round_div n d.
Proof.
  intros Hd. unfold round_div.
  destruct (Z.eq_dec (n mod d) 0) as [Hr | Hr].
  - rewrite Z.div_opp_l_z, Z.mod_opp_l_z, Hr by lia.
    replace (2 * 0 ?= d) with Lt by (symmetry; apply Z.compare_lt_iff; lia).
    reflexivity.
  - rewrite Z.div_opp_l_nz, Z.mod_opp_l_nz by lia.
    pose proof (Z.mod_pos_bound n d Hd) as Hb.
    assert (Heven : Z.even (- (n / d) - 1) = negb (Z.even (n / d))).
    { rewrite Z.even_sub, Z.even_opp. simpl. destruct (Z.even (n / d)); reflexivity. }
    destruct (Z.compare_spec (2 * (n mod d)) d) as [He | Hl | Hg].
    + replace (2 * (d - n mod d) ?= d) with Eq
        by (symmetry; apply Z.compare_eq_iff; lia).
      rewrite Heven. destruct (Z.even (n / d)); simpl; lia.
    + replace (2 * (d - n mod d) ?= d) with Gt
        by (symmetry; apply Z.compare_gt_iff; lia).
      lia.
    + replace (2 * (d - n mod d) ?= d) with Lt
        by (symmetry; apply Z.compare_lt_iff; lia).
      lia.
Qed.

Lemma round_div_above_half (n d : Z) : 0 < d -> d < 2 * n -> 1 <= round_div n d.
Proof.
  intros Hd Hn. unfold round_div.
  pose proof (Z.mod_pos_bound n d Hd) as Hb.
  pose proof (Z.div_mod n d ltac:(lia)) as Hdm.
  assert (Hf : 0 <= n / d) by (apply Z.div_pos; lia).
  destruct (Z.eq_dec (n / d) 0) as [H0 | H0].
  - rewrite H0 in *. 
    replace (2 * (n mod d) ?= d) with Gt
      by (symmetry; apply Z.compare_gt_iff; lia).
    lia.
  - destruct (2 * (n mod d) ?= d); try destruct (Z.even (n / d)); lia.
Qed.

Lemma round_div_nonneg (n d : Z) : 0 < d -> 0 <= n -> 0 <= round_div n d.
Proof.
  intros Hd Hn. unfold round_div.
  assert (Hf : 0 <= n / d) by (apply Z.div_pos; lia).
  destruct (2 * (n mod d) ?= d); try destruct (Z.even (n / d)); lia.
Qed.

Lemma round_div_abs (n d : Z) : 0 < d -> Z.abs (round_div n d) = round_div (Z.abs n) d.
Proof.
  intros Hd. destruct (Z.abs_spec n) as [[Hn ->] | [Hn ->]].
  - apply Z.abs_eq, round_div_nonneg; assumption.
  - rewrite round_div_opp by assumption.
    rewrite <- Z.abs_opp. rewrite <- round_div_opp by assumption.
    apply Z.abs_eq, round_div_nonneg; lia.
Qed.

(** Rounding to cents commutes with the absolute value. *)
Lemma round_cents_abs (q : Q) : Qabs (round_cents q) = round_cents (Qabs q).
Proof.
  destruct q as [n d]. unfold round_cents, round_half_even. simpl.
  rewrite round_div_abs by lia.
  f_equal. f_equal. rewrite Z.abs_mul. reflexivity.
Qed.

Lemma round_div_nearest (n d : Z) : 0 < d -> 2 * Z.abs (round_div n d * d - n) <= d.
Proof.
  intros Hd. unfold round_div.
  pose proof (Z.mod_pos_bound n d Hd) as Hb.
  pose proof (Z.div_mod n d ltac:(lia)) as Hdm.
  destruct (Z.compare_spec (2 * (n mod d)) d) as [He | Hl | Hg];
    try destruct (Z.even (n / d)); nia.
Qed.

(** Rounding to cents moves an amount by at most half a cent. *)
Lemma round_cents_nearest (q : Q) : (Qabs (round_cents q - q) <= 1 # 200)%Q.
Proof.
  destruct q as [n d]. unfold round_cents, round_half_even. cbn [Qmult Qnum Qden].
  pose proof (round_div_nearest (n * 100) (Z.pos (d * 1)) ltac:(lia)) as H.
  set (r := round_div (n * 100) (Z.pos (d * 1))) in *.
  unfold Qle, Qminus, Qplus, Qopp, Qabs. cbn [Qnum Qden].
  rewrite Pos.mul_1_r in *. rewrite Pos2Z.inj_mul.
  replace (r * Z.pos d + - n * 100) with (r * Z.pos d - n * 100) by lia.
  lia.
Qed.

(** The float nearest to a rational keeps its sign: the float nearest to
    the absolute value is the absolute value of the nearest float. *)
Lemma double_abs (q : Q) : f_abs (double q) = double (Qabs q).
Proof.
  destruct q as [n d]. unfold double. cbn [Qabs Qnum Qden].
  destruct (Z.eqb_spec n 0) as [-> | Hn]; [reflexivity | ].
  destruct (Z.eqb_spec (Z.abs n) 0) as [H0 | _]; [lia | ].
  rewrite Z.abs_idemp.
  set (a := Z.abs n).
  set (e := Z.max (if scaled_ge_2_53 a (Z.pos d) (Z.log2 a - Z.log2 (Z.pos d) - 53)
                   then Z.log2 a - Z.log2 (Z.pos d) - 53 + 1
                   else Z.log2 a - Z.log2 (Z.pos d) - 53) (- 1074)).
  replace (a <? 0) with false by (symmetry; apply Z.ltb_ge; unfold a; lia).
  destruct (Z.leb_spec 0 e) as [He | He].
  - assert (Hm : 0 <= round_div a (Z.pos d * 2 ^ e))
      by (apply round_div_nonneg; unfold a; [ | lia];
          apply Z.mul_pos_pos; [lia | apply Z.pow_pos_nonneg; lia]).
    set (m := round_div a (Z.pos d * 2 ^ e)) in *.
    assert (Hp : 0 <= m * 2 ^ e) by (apply Z.mul_nonneg_nonneg; [ | apply Z.pow_nonneg]; lia).
    destruct (2 ^ 1024 <=? m * 2 ^ e); [reflexivity | ].
    cbn [f_abs]. f_equal. unfold Qabs, inject_Z. f_equal.
    destruct (n <? 0); rewrite <- ?Z.mul_assoc; lia.
  - assert (Hm : 0 <= round_div (a * 2 ^ (- e)) (Z.pos d))
      by (apply round_div_nonneg; [lia | ];
          apply Z.mul_nonneg_nonneg; [unfold a; lia | apply Z.pow_nonneg; lia]).
    set (m := round_div (a * 2 ^ (- e)) (Z.pos d)) in *.
    cbn [f_abs]. f_equal. unfold Qabs. f_equal. destruct (n <? 0); lia.
Qed.

(** Rounding to two places commutes with the absolute value, so "the
    absolute value of the rounded amount" and "the rounded absolute value"
    are one number. *)
Lemma py_round2_abs (x : float64) : f_abs (py_round2 x) = py_round2 (f_abs x).
Proof.
  destruct x as [q | negative]; [ | reflexivity].
  cbn [py_round2 f_abs]. rewrite double_abs, round_cents_abs. reflexivity.
Qed.

Lemma Qabs_opp_eq (x : Q) : Qabs (- x) = Qabs x.
Proof.
  destruct x as [n d]. unfold Qabs, Qopp. cbn [Qnum Qden].
  rewrite Z.abs_opp. reflexivity.
Qed.

Lemma f_abs_neg (x : float64) : f_abs (f_neg x) = f_abs x.
Proof.
  destruct x as [q | negative]; cbn [f_abs f_neg]; [ | reflexivity].
  rewrite Qabs_opp_eq. reflexivity.
Qed.

(** A finite float and its negation add up to zero; the two infinities
    have no sum. *)
Lemma f_add_neg (x : float64) :
  f_add x (f_neg x) = if is_finite x then Some f_zero else None.
Proof.
  destruct x as [[n d] | [ | ]]; try reflexivity.
  cbn [f_add f_neg is_finite]. unfold double, Qplus, Qopp. cbn [Qnum Qden].
  replace (n * Z.pos d + - n * Z.pos d) with 0 by lia. reflexivity.
Qed.

(** An absolute value is not below zero. *)
Lemma f_abs_not_negative (x : float64) : f_ltb (f_abs x) f_zero = false.
Proof.
  destruct x as [q | negative]; [ | reflexivity].
  cbn [f_abs f_ltb f_zero]. apply negb_false_iff, Qle_bool_iff, Qabs_nonneg.
Qed.

(** ** The generator: one row, then the loop *)

Section Generator.
Context `{P : Pandas}.

Lemma reference_text_typed (v : value) :
  reference_typed v = true -> exists text, reference_text v = Returned text.
Proof.
  destruct v; simpl; try discriminate; intros _; unfold reference_text; simpl;
    eexists; reflexivity.
Qed.

(** What the loop body appends for a row of a schedule. *)
Lemma row_entries_schedule_row (date label : string) (row : Series) :
  is_schedule_row label row = true ->
  exists x text,
    series_get row label (VInt 0) = VFloat x
    /\ reference_text (series_get row "Reference" VNA) = Returned text
    /\ row_entries date label row =
       Returned
         (if exceeds_threshold x then
            let description :=
              "Prepayment amortisation for "
              ++ format_value (series_get row "Prepayment Item" (VStr "Unknown Item")) in
            [ {| Date := date; Description := description; Reference := text;
                 Account := "EXP001"; Amount := f_abs (py_round2 x) |};
              {| Date := date; Description := description; Reference := text;
                 Account := "PRE001"; Amount := f_neg (f_abs (py_round2 x)) |} ]
          else []).
Proof.
  unfold is_schedule_row. intros H. apply andb_prop in H as [Href Hamt].
  destruct (reference_text_typed _ Href) as [text Htext].
  destruct (series_get row label (VInt 0)) as [ | x | | | ] eqn:Hx; try discriminate.
  exists x, text. repeat split; try assumption.
  unfold row_entries, abs_round2. rewrite Htext, Hx. simpl.
  destruct (exceeds_threshold x); reflexivity.
Qed.

Lemma iterrows_loop_groups (date label : string) (todo : list Series)
    (groups : list (list PostingEntry)) :
  Forall2 (fun row es => row_entries date label row = Returned es) todo groups ->
  forall entries,
    iterrows_loop date label todo entries = Returned (entries ++ List.concat groups)%list.
Proof.
  induction 1 as [ | row es todo groups Hrow _ IH]; intros entries; simpl.
  - rewrite app_nil_r. reflexivity.
  - rewrite Hrow. simpl. rewrite IH, app_assoc. reflexivity.
Qed.

(** Every row of a schedule makes the loop body return. *)
Lemma schedule_rows_return (date label : string) (todo : list Series) :
  forallb (is_schedule_row label) todo = true ->
  exists groups,
    Forall2 (fun row es => row_entries date label row = Returned es) todo groups.
Proof.
  induction todo as [ | row todo IH]; simpl; intros H.
  - exists []. constructor.
  - apply andb_prop in H as [Hrow Hrest].
    destruct (IH Hrest) as [groups Hgroups].
    destruct (row_entries_schedule_row date label row Hrow) as (q & text & _ & _ & Hes).
    eexists (_ :: groups). constructor; [exact Hes | exact Hgroups].
Qed.



End Generator.

(** ** Dates *)

Lemma char_isdecimal_value (c : ascii) :
  char_isdecimal c = true -> 0 <= digit_value c <= 9.
Proof.
  unfold char_isdecimal, between, digit_value. intros H.
  apply andb_prop in H as [H1 H2]. apply Z.leb_le in H1, H2. lia.
Qed.

Lemma match_month_range (s rest : string) (m : Z) :
  match_month s = Some (m, rest) -> 1 <= m <= 12.
Proof.
  assert (Hbetween : forall lo hi n, between lo hi n = true -> lo <= n <= hi).
  { unfold between. intros lo hi n H. apply andb_prop in H as [H1 H2].
    apply Z.leb_le in H1, H2. lia. }
  unfold match_month, digit_value. destruct s as [ | c s]; try discriminate.
  destruct (Ascii.eqb c "1").
  - destruct s as [ | c' s'].
    + intros H. assert (m = 1) by congruence. lia.
    + destruct (between 48 50 (code c')) eqn:Hc; intros H.
      * apply Hbetween in Hc. assert (m = 10 + (code c' - 48)) by congruence. lia.
      * assert (m = 1) by congruence. lia.
  - destruct (Ascii.eqb c "0").
    + destruct s as [ | c' s']; try discriminate.
      destruct (between 49 57 (code c')) eqn:Hc; try discriminate.
      intros H. apply Hbetween in Hc. assert (m = code c' - 48) by congruence. lia.
    + destruct (between 49 57 (code c)) eqn:Hc; try discriminate.
      intros H. apply Hbetween in Hc. assert (m = code c - 48) by congruence. lia.
Qed.

(** The parser raises nothing but [ValueError]. *)
Lemma strptime_raises_ValueError (s : string) (e : exn) :
  strptime_Y_m s = Raised e -> e = ValueError.
Proof.
  unfold strptime_Y_m.
  destruct s as [ | a [ | b [ | c [ | d [ | sep rest]]]]];
    try (intros H; injection H as <-; reflexivity).
  destruct (_ && _).
  - destruct (match_month rest) as [[m [ | ? ?]] | ];
      try (intros H; injection H as <-; reflexivity).
    destruct (_ =? 0); [ | discriminate].
    intros H; injection H as <-; reflexivity.
  - intros H; injection H as <-; reflexivity.
Qed.

(** A period the parser reads is a year from 1 to 9999 and a month from 1
    to 12. *)
Lemma decimal_value_four (a b c d : ascii) :
  decimal_value (String a (String b (String c (String d "")))) 0
  = 1000 * digit_value a + 100 * digit_value b + 10 * digit_value c + digit_value d.
Proof. cbn [decimal_value]. lia. Qed.

Lemma strptime_range (s : string) (y m : Z) :
  strptime_Y_m s = Returned (y, m) -> 1 <= y <= 9999 /\ 1 <= m <= 12.
Proof.
  unfold strptime_Y_m.
  destruct s as [ | a [ | b [ | c [ | d [ | sep rest]]]]]; try discriminate.
  destruct (_ && _) eqn:Hshape; try discriminate.
  destruct (match_month rest) as [[m' [ | ? ?]] | ] eqn:Hm; try discriminate.
  rewrite decimal_value_four.
  destruct (_ =? 0) eqn:Hy; try discriminate.
  intros H. apply Z.eqb_neq in Hy.
  assert (Hyv : y = 1000 * digit_value a + 100 * digit_value b
                    + 10 * digit_value c + digit_value d) by congruence.
  assert (Hmv : m = m') by congruence. subst m'. clear H.
  apply andb_prop in Hshape as [Hdigits _]. cbn [string_forallb] in Hdigits.
  apply andb_prop in Hdigits as [Ha Hdigits].
  apply andb_prop in Hdigits as [Hb Hdigits].
  apply andb_prop in Hdigits as [Hc Hdigits].
  apply andb_prop in Hdigits as [Hd _].
  apply char_isdecimal_value in Ha, Hb, Hc, Hd.
  split; [lia | apply (match_month_range _ _ _ Hm)].
Qed.



Lemma length_append (s t : string) :
  String.length (s ++ t) = (String.length s + String.length t)%nat.
Proof.
  induction s as [ | c s IH]; simpl; [reflexivity | rewrite IH; reflexivity].
Qed.

Lemma length_zero_pad (width : nat) (n : Z) : String.length (zero_pad width n) = width.
Proof.
  revert n. induction width as [ | w IH]; intros n; simpl; [reflexivity | ].
  rewrite length_append, IH. simpl. lia.
Qed.

Lemma decimal_value_append (s : string) (c : ascii) (acc : Z) :
  decimal_value (s ++ String c "") acc = 10 * decimal_value s acc + digit_value c.
Proof.
  revert acc. induction s as [ | c' s IH]; intros acc; simpl; [reflexivity | apply IH].
Qed.

Lemma digit_value_digit_char (d : Z) : 0 <= d <= 9 -> digit_value (digit_char d) = d.
Proof.
  intros H. unfold digit_value, digit_char, code.
  rewrite nat_ascii_embedding by lia. lia.
Qed.

(** The padded digits read back as the number they were written from. *)
Lemma decimal_value_zero_pad (width : nat) (n : Z) :
  0 <= n < 10 ^ Z.of_nat width -> decimal_value (zero_pad width n) 0 = n.
Proof.
  revert n. induction width as [ | w IH]; intros n Hn.
  - simpl in *. lia.
  - cbn [zero_pad]. rewrite decimal_value_append.
    rewrite Nat2Z.inj_succ, Z.pow_succ_r in Hn by lia.
    rewrite IH by (split; [apply Z.div_pos; lia | apply Z.div_lt_upper_bound; lia]).
    rewrite digit_value_digit_char by (pose proof (Z.mod_pos_bound n 10); lia).
    pose proof (Z.div_mod n 10). lia.
Qed.

Lemma char_isdecimal_digit_char (d : Z) :
  0 <= d <= 9 -> char_isdecimal (digit_char d) = true.
Proof.
  intros H. pose proof (digit_value_digit_char d H) as Hv.
  unfold char_isdecimal, between. unfold digit_value in Hv.
  apply andb_true_intro. split; apply Z.leb_le; lia.
Qed.

Lemma match_month_zero_pad (m : Z) :
  1 <= m <= 12 -> match_month (zero_pad 2 m) = Some (m, "").
Proof.
  intros H.
  assert (Hcases : m = 1 \/ m = 2 \/ m = 3 \/ m = 4 \/ m = 5 \/ m = 6 \/ m = 7
                   \/ m = 8 \/ m = 9 \/ m = 10 \/ m = 11 \/ m = 12) by lia.
  repeat (destruct Hcases as [-> | Hcases]; [reflexivity | ]).
  subst m. reflexivity.
Qed.

(** The parser reads every period written as the specification asks. *)
Lemma strptime_period_text (y m : Z) :
  1 <= y <= 9999 -> 1 <= m <= 12 -> strptime_Y_m (period_text y m) = Returned (y, m).
Proof.
  intros Hy Hm. unfold period_text.
  pose proof (decimal_value_zero_pad 4 y ltac:(simpl; lia)) as Hval.
  assert (Hdigit : forall n, char_isdecimal (digit_char (n mod 10)) = true).
  { intros n. apply char_isdecimal_digit_char.
    pose proof (Z.mod_pos_bound n 10). lia. }
  change (zero_pad 4 y)
    with (String (digit_char (y / 10 / 10 / 10 mod 10))
            (String (digit_char (y / 10 / 10 mod 10))
               (String (digit_char (y / 10 mod 10))
                  (String (digit_char (y mod 10)) "")))) in *.
  cbn [append]. unfold strptime_Y_m. cbn [string_forallb].
  rewrite !Hdigit. cbn [andb]. unfold dash. rewrite Ascii.eqb_refl.
  rewrite (match_month_zero_pad m Hm), Hval.
  destruct (Z.eqb_spec y 0); [lia | reflexivity].
Qed.

(** It also reads a month written with one digit, and refuses the
    malformed periods of the specification. *)
Example strptime_one_digit_month : strptime_Y_m "2024-5" = Returned (2024, 5).
Proof. reflexivity. Qed.

Example strptime_malformed :
  strptime_Y_m "2024/05" = Raised ValueError
  /\ strptime_Y_m "May-2024" = Raised ValueError
  /\ strptime_Y_m "2024-13" = Raised ValueError
  /\ strptime_Y_m "0000-01" = Raised ValueError.
Proof. repeat split; reflexivity. Qed.

Example month_end_examples :
  month_end_text 2024 1 = "31/01/2024"
  /\ month_end_text 2024 2 = "29/02/2024"
  /\ month_end_text 2023 2 = "28/02/2023"
  /\ month_end_text 1900 2 = "28/02/1900"
  /\ month_end_text 2000 2 = "29/02/2000"
  /\ month_end_text 2024 4 = "30/04/2024".
Proof. repeat split; reflexivity. Qed.

(** ** The generator: the stated properties *)

Section GeneratorClaims.
Context `{P : Pandas}.

(** A row of a schedule contributes nothing or one balanced pair, with the
    amounts the script computes. *)
Lemma schedule_row_contribution (date label : string) (row : Series) :
  is_schedule_row label row = true ->
  exists es,
    row_entries date label row = Returned es
    /\ row_postings label row es
    /\ row_amounts label row es.
Proof.
  intros Hrow.
  destruct (row_entries_schedule_row date label row Hrow) as (x & text & Hx & _ & Hes).
  eexists. split; [exact Hes | ].
  destruct (exceeds_threshold x) eqn:Hgt.
  - split; exists x; (split; [exact Hx | ]);
      (split; [intros Hc; congruence | intros _]);
      do 2 eexists; (split; [reflexivity | ]).
    + unfold balanced_pair; cbn [Account Amount Date Description Reference].
      rewrite f_add_neg.
      repeat split; try discriminate.
      * apply f_abs_not_negative.
      * intros Hfin. rewrite Hfin. reflexivity.
      * intros Hfin. rewrite Hfin. reflexivity.
    + cbn [Amount]. split; [reflexivity | ].
      split; [apply py_round2_abs | ].
      split; [ | reflexivity].
      intros q ->. cbn [py_round2 f_abs].
      rewrite double_abs, round_cents_abs.
      split; [reflexivity | apply round_cents_nearest].
  - split; exists x; (split; [exact Hx | ]); (split; [reflexivity | ]);
      intros Hc; congruence.
Qed.

Lemma schedule_rows_contribution (date label : string) (todo : list Series) :
  forallb (is_schedule_row label) todo = true ->
  exists groups,
    Forall2 (fun row es => row_entries date label row = Returned es) todo groups
    /\ Forall2 (row_postings label) todo groups
    /\ Forall2 (row_amounts label) todo groups.
Proof.
  induction todo as [ | row todo IH]; simpl; intros H.
  - exists []. repeat split; constructor.
  - apply andb_prop in H as [Hrow Hrest].
    destruct (IH Hrest) as (groups & H1 & H2 & H3).
    destruct (schedule_row_contribution date label row Hrow) as (es & E1 & E2 & E3).
    exists (es :: groups). repeat split; constructor; assumption.
Qed.

(** What the generator returns for a period it reads and finds among the
    month columns, over the rows of a schedule. *)
Lemma generate_over_schedule (df : DataFrame) (cols : list string)
    (target : string) (y m : Z) :
  strptime_Y_m target = Returned (y, m) ->
  in_columns (strftime_b_y y m) cols = true ->
  forallb (is_schedule_row (strftime_b_y y m)) (rows df) = true ->
  exists groups,
    generate_accounting_entries df cols target = Returned (List.concat groups)
    /\ Forall2 (row_postings (strftime_b_y y m)) (rows df) groups
    /\ Forall2 (row_amounts (strftime_b_y y m)) (rows df) groups.
Proof.
  intros Hparse Hcol Hrows.
  destruct (schedule_rows_contribution
              (strftime_d_m_Y y m (relativedelta_day31 y m)) _ _ Hrows)
    as (groups & Hloop & Hpost & Hamt).
  exists groups. split; [ | split; assumption].
  unfold generate_accounting_entries. rewrite Hparse, Hcol. simpl.
  apply (iterrows_loop_groups _ _ _ _ Hloop []).
Qed.

(** C3, as the script has it: for a period the generator reads and finds
    among the month columns, over records whose reference is a whole number
    or missing and whose amount for the month is a float, it returns,
    record after record in the order of the schedule, nothing for a record
    whose amount is negligible and, for every other record, exactly two
    entries, the debit first: the accounts are the expense account and the
    prepayment account, which differ, the credit amount is the debit amount
    negated, so that the two add up to zero when the amount is finite and
    to no number when it is infinite, and date, description and reference
    are the same. *)
Theorem generate_emits_balanced_pairs (df : DataFrame) (cols : list string)
    (target : string) (y m : Z) :
  strptime_Y_m target = Returned (y, m) ->
  in_columns (strftime_b_y y m) cols = true ->
  forallb (is_schedule_row (strftime_b_y y m)) (rows df) = true ->
  exists groups,
    generate_accounting_entries df cols target = Returned (List.concat groups)
    /\ Forall2 (row_postings (strftime_b_y y m)) (rows df) groups.
Proof.
  intros Hparse Hcol Hrows.
  destruct (generate_over_schedule df cols target y m Hparse Hcol Hrows)
    as (groups & Hgen & Hpost & _).
  exists groups. split; assumption.
Qed.



(** C1, as the script has it: a period the parser refuses makes the
    generator return the empty list, and so does a period it reads but
    does not find among the month columns; both calls return one and the
    same value. *)
Theorem invalid_period_returns_empty_list (df : DataFrame) (cols : list string)
    (malformed absent : string) (e : exn) (y m : Z) :
  strptime_Y_m malformed = Raised e ->
  strptime_Y_m absent = Returned (y, m) ->
  in_columns (strftime_b_y y m) cols = false ->
  generate_accounting_entries df cols malformed = Returned []
  /\ generate_accounting_entries df cols absent = Returned []
  /\ generate_accounting_entries df cols malformed
     = generate_accounting_entries df cols absent.
Proof.
  intros Hbad Hok Hcol.
  assert (H1 : generate_accounting_entries df cols malformed = Returned []).
  { unfold generate_accounting_entries.
    rewrite Hbad, (strptime_raises_ValueError _ _ Hbad). reflexivity. }
  assert (H2 : generate_accounting_entries df cols absent = Returned []).
  { unfold generate_accounting_entries. rewrite Hok, Hcol. reflexivity. }
  repeat split; try assumption. rewrite H1, H2. reflexivity.
Qed.

End GeneratorClaims.

Lemma generate_emits_balanced_pairs_example :
  exists groups,
    generate_accounting_entries example_frame example_months "2024-01"
    = Returned (List.concat groups)
    /\ Forall2 (row_postings "Jan-24") (rows example_frame) groups.
Proof.
  apply (generate_emits_balanced_pairs (P := plain_pandas)
           example_frame example_months "2024-01" 2024 1); reflexivity.
Defined.



Lemma invalid_period_returns_empty_list_example :
  generate_accounting_entries example_frame example_months "May-2024" = Returned []
  /\ generate_accounting_entries example_frame example_months "2030-01" = Returned []
  /\ generate_accounting_entries example_frame example_months "May-2024"
     = generate_accounting_entries example_frame example_months "2030-01".
Proof.
  apply (invalid_period_returns_empty_list (P := plain_pandas)
           example_frame example_months "May-2024" "2030-01" ValueError 2030 1);
    reflexivity.
Defined.

(** C1, as the specification states it, fails: the malformed period
    "2024/05" and the period "2030-01", well formed but absent from a
    schedule of 2024, give the caller the same empty list, so nothing
    computed from the returned value tells them apart. *)
Lemma malformed_period_same_as_absent :
  strptime_Y_m "2024/05" = Raised ValueError
  /\ strptime_Y_m "2030-01" = Returned (2030, 1)
  /\ in_columns (strftime_b_y 2030 1) example_months = false
  /\ ~ exists distinguish : result (list PostingEntry) -> bool,
         distinguish
           (generate_accounting_entries example_frame example_months "2024/05") = true
         /\ distinguish
              (generate_accounting_entries example_frame example_months "2030-01") = false.
Proof.
  repeat split; try reflexivity.
  intros (distinguish & Hbad & Habsent).
  change (generate_accounting_entries example_frame example_months "2024/05")
    with (@Returned (list PostingEntry) []) in Hbad.
  change (generate_accounting_entries example_frame example_months "2030-01")
    with (@Returned (list PostingEntry) []) in Habsent.
  congruence.
Qed.

(** C3, as the specification states it, fails: this file loads, the
    amount of its record for January reads as the infinite float, which is
    not negligible, and the generator returns a pair with the amounts inf
    and -inf, whose sum is NaN and not zero. *)
Lemma infinite_amount_pair_has_no_sum :
  load_prepayment_schedule infinite_file = Some (infinite_frame, ["Jan-24"])
  /\ exceeds_threshold (Infinite false) = true
  /\ exists debit credit,
       generate_accounting_entries infinite_frame ["Jan-24"] "2024-01"
       = Returned [debit; credit]
       /\ Amount debit = Infinite false
       /\ Amount credit = Infinite true
       /\ f_add (Amount debit) (Amount credit) = None
       /\ f_add (Amount debit) (Amount credit) <> Some f_zero.
Proof.
  split; [reflexivity | split; [reflexivity | ]].
  do 2 eexists. split; [reflexivity | ].
  cbn [Amount]. repeat split; discriminate.
Qed.


Example negligible_amount_no_posting :
  row_entries "31/01/2024" "Jan-24"
    [("Prepayment Item", VStr "Rent"); ("Reference", VNA); ("Jan-24", VFloat (double (3 # 1000)))]
  = Returned [].
Proof. reflexivity. Qed.

Example small_amount_rounds_up :
  row_entries "31/01/2024" "Jan-24"
    [("Prepayment Item", VStr "Licence"); ("Reference", VInt 46248);
     ("Jan-24", VFloat (double (6 # 1000)))]
  = Returned
      [ {| Date := "31/01/2024"; Description := "Prepayment amortisation for Licence";
           Reference := "46248"; Account := "EXP001"; Amount := double (1 # 100) |};
        {| Date := "31/01/2024"; Description := "Prepayment amortisation for Licence";
           Reference := "46248"; Account := "PRE001"; Amount := f_neg (double (1 # 100)) |} ].
Proof. reflexivity. Qed.

(** The bound is the float nearest to 0.005, and a cell that reads 0.005 is
    that float, so it does not exceed the bound. *)
Example bound_itself_is_negligible :
  threshold = Finite (5764607523034235 # 1152921504606846976)
  /\ exceeds_threshold (double (5 # 1000)) = false
  /\ exceeds_threshold (double (-5 # 1000)) = false
  /\ exceeds_threshold (double (50001 # 10000000)) = true.
Proof. repeat split; reflexivity. Qed.

(** Rounding acts on the float, not on the decimal text of the cell: the
    float nearest to 2.675 lies below it and rounds to 2.67, the tie 0.125
    is a float and rounds to the even 0.12, and an infinite amount is its
    own rounding. *)
Example rounding_of_floats :
  py_round2 (double (2675 # 1000)) = double (267 # 100)
  /\ py_round2 (double (125 # 1000)) = double (12 # 100)
  /\ py_round2 (double (375 # 1000)) = double (38 # 100)
  /\ py_round2 (double (-100004 # 1000)) = double (-10000 # 100)
  /\ py_round2 (Infinite false) = Infinite false.
Proof. repeat split; reflexivity. Qed.

(** The scenario of the specification: one record, January 2024. *)
Example insurance_scenario :
  generate_accounting_entries
    {| columns := ["Prepayment Item"; "Reference"; "Jan-24"];
       rows := [ [("Prepayment Item", VStr "Insurance"); ("Reference", VInt 1001);
                  ("Jan-24", VFloat (double (-10000 # 100)))] ] |}
    ["Jan-24"] "2024-01"
  = Returned
      [ {| Date := "31/01/2024"; Description := "Prepayment amortisation for Insurance";
           Reference := "1001"; Account := "EXP001"; Amount := double (10000 # 100) |};
        {| Date := "31/01/2024"; Description := "Prepayment amortisation for Insurance";
           Reference := "1001"; Account := "PRE001"; Amount := f_neg (double (10000 # 100)) |} ].
Proof. reflexivity. Qed.

(** ** Month columns *)

Lemma char_isalpha_not_dash (c : ascii) : char_isalpha c = true -> Ascii.eqb c dash = false.
Proof.
  intros H. destruct (Ascii.eqb_spec c dash) as [-> | ]; [ | reflexivity].
  discriminate H.
Qed.

Lemma char_isdigit_not_dash (c : ascii) : char_isdigit c = true -> Ascii.eqb c dash = false.
Proof.
  intros H. destruct (Ascii.eqb_spec c dash) as [-> | ]; [ | reflexivity].
  discriminate H.
Qed.

(** Every label of the shape the specification describes passes the test
    of the loader. *)
Lemma mmm_yy_shape_is_month_column (col : string) :
  mmm_yy_shape col = true -> is_month_column col = true.
Proof.
  destruct col as [ | a [ | b [ | c [ | d [ | e [ | f [ | ? ?]]]]]]]; try discriminate.
  cbn [mmm_yy_shape]. intros H.
  repeat (apply andb_prop in H as [H ?Hc]).
  apply Ascii.eqb_eq in Hc1. subst d.
  unfold is_month_column.
  cbn [String.length Nat.eqb contains split nth andb].
  rewrite (char_isalpha_not_dash _ H), (char_isalpha_not_dash _ Hc3),
    (char_isalpha_not_dash _ Hc2), (char_isdigit_not_dash _ Hc0),
    (char_isdigit_not_dash _ Hc), Ascii.eqb_refl.
  cbn [orb andb nth]. unfold isalpha, isdigit. cbn [nonempty string_forallb andb].
  rewrite H, Hc3, Hc2, Hc0, Hc. reflexivity.
Qed.

(** C2: the test of the loader also accepts labels that are not three
    letters, a dash and two digits: "Ab-123" and "Abcd-1" have the dash in
    another place, "A-1-bc" has two dashes. *)
Theorem month_test_accepts_other_shapes :
  (is_month_column "Ab-123" = true /\ mmm_yy_shape "Ab-123" = false)
  /\ (is_month_column "Abcd-1" = true /\ mmm_yy_shape "Abcd-1" = false)
  /\ (is_month_column "A-1-bc" = true /\ mmm_yy_shape "A-1-bc" = false).
Proof. repeat split; reflexivity. Qed.

Example month_Jan_24 : is_month_column "Jan-24" = true /\ is_month_column "Dec-99" = true.
Proof. split; reflexivity. Qed.

Example month_Total : is_month_column "Total" = false /\ is_month_column "ABC-2024" = false.
Proof. split; reflexivity. Qed.

(** The rule is about the form alone: "Xyz-24" names no month and passes. *)
Example month_Xyz_24 : is_month_column "Xyz-24" = true.
Proof. reflexivity. Qed.

(** ** Rows and columns *)

Lemma in_columns_In (key : string) (cols : list string) :
  in_columns key cols = true <-> In key cols.
Proof.
  unfold in_columns. rewrite existsb_exists. split.
  - intros (k & Hin & Heq). apply String.eqb_eq in Heq. subst. assumption.
  - intros Hin. exists key. split; [assumption | apply String.eqb_refl].
Qed.

Lemma in_columns_not_In (key : string) (cols : list string) :
  in_columns key cols = false <-> ~ In key cols.
Proof.
  rewrite <- in_columns_In. destruct (in_columns key cols); split; intros; congruence.
Qed.

Lemma map_fst_set_label (key : string) (v : value) (row : Series) :
  map fst (set_label key v row) = map fst row.
Proof.
  unfold set_label. rewrite map_map. apply map_ext.
  intros [k w]. simpl. destruct (String.eqb k key); reflexivity.
Qed.

Lemma series_get_set_label_same (key : string) (v d : value) (row : Series) :
  In key (map fst row) -> series_get (set_label key v row) key d = v.
Proof.
  induction row as [ | [k w] row IH]; simpl; intros Hin; [contradiction | ].
  destruct (String.eqb k key) eqn:Hk; simpl; rewrite Hk; [reflexivity | ].
  apply IH. destruct Hin as [-> | Hin]; [ | assumption].
  rewrite String.eqb_refl in Hk. discriminate.
Qed.

Lemma series_get_set_label_other (key k : string) (v d : value) (row : Series) :
  key <> k -> series_get (set_label key v row) k d = series_get row k d.
Proof.
  intros Hne. induction row as [ | [k' w] row IH]; simpl; [reflexivity | ].
  destruct (String.eqb k' key) eqn:Hk; simpl; rewrite IH; [ | reflexivity].
  apply String.eqb_eq in Hk. subst k'.
  apply String.eqb_neq in Hne. rewrite Hne. reflexivity.
Qed.

Lemma series_get_app_new (key : string) (v d : value) (row : Series) :
  ~ In key (map fst row) -> series_get (row ++ [(key, v)])%list key d = v.
Proof.
  induction row as [ | [k w] row IH]; simpl; intros Hnot.
  - rewrite String.eqb_refl. reflexivity.
  - destruct (String.eqb k key) eqn:Hk.
    + apply String.eqb_eq in Hk. tauto.
    + apply IH. tauto.
Qed.

Lemma series_get_app_other (key k : string) (v d : value) (row : Series) :
  key <> k -> series_get (row ++ [(key, v)])%list k d = series_get row k d.
Proof.
  intros Hne. induction row as [ | [k' w] row IH]; simpl.
  - apply String.eqb_neq in Hne. rewrite Hne. reflexivity.
  - rewrite IH. reflexivity.
Qed.

Lemma map_fst_combine_same {A B : Type} (l : list A) (l' : list B) :
  List.length l' = List.length l -> map fst (combine l l') = l.
Proof.
  revert l'. induction l as [ | a l IH]; intros [ | b l'] Hlen; try discriminate;
    simpl; [reflexivity | ].
  rewrite IH by (simpl in Hlen; lia). reflexivity.
Qed.

Lemma map_snd_combine_same {A B : Type} (l : list A) (l' : list B) :
  List.length l' = List.length l -> map snd (combine l l') = l'.
Proof.
  revert l'. induction l as [ | a l IH]; intros [ | b l'] Hlen; try discriminate;
    simpl; [reflexivity | ].
  rewrite IH by (simpl in Hlen; lia). reflexivity.
Qed.

Lemma rows_setitem_length (df : DataFrame) (key : string) (vals : list value) :
  List.length vals = List.length (rows df) ->
  List.length (rows (setitem df key vals)) = List.length (rows df).
Proof.
  intros Hlen. unfold setitem. destruct (in_columns key (columns df)); simpl;
    rewrite length_map, length_combine; lia.
Qed.

Lemma columns_setitem (df : DataFrame) (key : string) (vals : list value) :
  columns (setitem df key vals)
  = if in_columns key (columns df) then columns df else (columns df ++ [key])%list.
Proof. unfold setitem. destruct (in_columns key (columns df)); reflexivity. Qed.

Lemma column_values_setitem_other (df : DataFrame) (key : string) (vals : list value)
    (k : string) (d : value) :
  List.length vals = List.length (rows df) ->
  key <> k ->
  column_values (setitem df key vals) k d = column_values df k d.
Proof.
  intros Hlen Hne. unfold column_values, setitem.
  rewrite <- (map_fst_combine_same (rows df) vals Hlen) at 3.
  destruct (in_columns key (columns df)); simpl; rewrite !map_map; apply map_ext;
    intros [r v]; simpl.
  - apply series_get_set_label_other. assumption.
  - apply series_get_app_other. assumption.
Qed.

Lemma column_values_setitem_same (df : DataFrame) (key : string) (vals : list value)
    (d : value) :
  List.length vals = List.length (rows df) ->
  aligned df ->
  column_values (setitem df key vals) key d = vals.
Proof.
  intros Hlen Hal. unfold column_values, setitem.
  rewrite <- (map_snd_combine_same (rows df) vals Hlen) at 3.
  unfold aligned in Hal. rewrite Forall_forall in Hal.
  destruct (in_columns key (columns df)) eqn:Hin; simpl; rewrite !map_map;
    apply map_ext_in; intros [r v] Hrv; apply in_combine_l in Hrv; simpl.
  - apply series_get_set_label_same. rewrite (Hal r Hrv).
    apply in_columns_In. assumption.
  - apply series_get_app_new. rewrite (Hal r Hrv).
    apply in_columns_not_In. assumption.
Qed.

Lemma aligned_setitem (df : DataFrame) (key : string) (vals : list value) :
  aligned df -> aligned (setitem df key vals).
Proof.
  unfold aligned, setitem. intros Hal.
  destruct (in_columns key (columns df)); simpl; apply Forall_forall;
    intros row Hrow; apply in_map_iff in Hrow as ([r v] & <- & Hin);
    apply in_combine_l in Hin; rewrite Forall_forall in Hal; simpl.
  - rewrite map_fst_set_label. apply Hal. assumption.
  - rewrite map_app, (Hal r Hin). reflexivity.
Qed.

(** ** Reading the file *)

Lemma read_row_labels (header cells : list string) :
  map fst (read_row header cells) = header.
Proof.
  revert cells. induction header as [ | label labels IH]; intros cells; simpl;
    [reflexivity | ].
  destruct cells as [ | cell cells]; simpl; rewrite IH; reflexivity.
Qed.

Lemma rename_row_labels (row : Series) :
  map fst (rename_row row) = map rename_label (map fst row).
Proof. unfold rename_row. rewrite !map_map. reflexivity. Qed.

Lemma map_removelast {A B : Type} (f : A -> B) (l : list A) :
  map f (removelast l) = removelast (map f l).
Proof.
  induction l as [ | a [ | b l] IH]; try reflexivity.
  cbn [removelast map] in *. rewrite IH. reflexivity.
Qed.




(** Where [read_csv] returns, every cell of a data line past the row
    labels has a label of the header: no cell is dropped. *)
Lemma read_csv_keeps_cells (lines : list (list string)) (skiprows : nat)
    (header : list string) (body : list (list string)) (df : DataFrame) :
  skipn skiprows lines = header :: body ->
  read_csv (Some lines) skiprows = Returned df ->
  Forall (fun cells =>
            (List.length (skipn (leading_cells header body) cells)
             <= List.length header)%nat) body.
Proof.
  intros Hskip. unfold read_csv. rewrite Hskip.
  destruct (forallb _ body) eqn:Hfit; [ | discriminate]. intros _.
  rewrite forallb_forall in Hfit. apply Forall_forall. intros cells Hin.
  specialize (Hfit cells Hin). apply Nat.leb_le in Hfit.
  rewrite length_skipn. unfold leading_cells. lia.
Qed.

(** What the reading stage returns when it returns: the renamed header and
    the renamed data lines, all of them or all but the last. *)
Lemma read_schedule_inv (file : option (list (list string))) (raw : DataFrame) :
  read_schedule file = Returned raw ->
  exists lines header body kept,
    file = Some lines
    /\ skipn 2 lines = header :: body
    /\ (kept = body \/ kept = removelast body)
    /\ raw = {| columns := map rename_label header;
                rows := map rename_row (map (read_line header body) kept) |}.
Proof.
  unfold read_schedule, read_csv.
  destruct file as [lines | ]; try discriminate.
  destruct (skipn 2 lines) as [ | header body] eqn:Hskip; try discriminate.
  destruct (forallb _ body); try discriminate.
  cbn [bind]. destruct (iloc_last_first _) as [cell | ]; try discriminate.
  cbn [bind]. intros H. injection H as <-.
  exists lines, header, body.
  destruct (value_eq_text cell "Balance").
  - exists (removelast body). repeat split; auto.
    unfold rename, drop_tail. cbn [columns rows].
    rewrite !map_removelast. reflexivity.
  - exists body. repeat split; auto.
Qed.

Lemma aligned_read_schedule (file : option (list (list string))) (raw : DataFrame) :
  read_schedule file = Returned raw -> aligned raw.
Proof.
  intros H. destruct (read_schedule_inv _ _ H) as (lines & header & body & kept & _ & _ & _ & ->).
  unfold aligned. cbn [columns rows]. apply Forall_forall. intros row Hrow.
  apply in_map_iff in Hrow as (r & <- & Hr).
  apply in_map_iff in Hr as (cells & <- & _).
  unfold read_line. rewrite rename_row_labels, read_row_labels. reflexivity.
Qed.


(** ** The normalising stage *)

Lemma mapM_Forall2 {A B : Type} (f : A -> result B) (l : list A) (bs : list B) :
  mapM f l = Returned bs <-> Forall2 (fun a b => f a = Returned b) l bs.
Proof.
  revert bs. induction l as [ | a l IH]; intros bs; simpl.
  - split.
    + intros H. injection H as <-. constructor.
    + intros H. inversion H. reflexivity.
  - split.
    + destruct (f a) as [b | ] eqn:Hfa; simpl; try discriminate.
      destruct (mapM f l) as [bs' | ]; simpl; try discriminate.
      intros H. injection H as <-. constructor; [assumption | apply IH; reflexivity].
    + intros H. inversion H as [ | ? b ? bs' Hfa Hrest]; subst.
      rewrite Hfa. simpl. apply IH in Hrest. rewrite Hrest. reflexivity.
Qed.

Lemma Forall2_maps {A B C D : Type} (R : C -> D -> Prop) (f : A -> C) (g : B -> D)
    (l : list A) (l' : list B) :
  Forall2 R (map f l) (map g l') <-> Forall2 (fun a b => R (f a) (g b)) l l'.
Proof.
  revert l'. induction l as [ | a l IH]; intros [ | b l']; simpl; split; intros H;
    try (inversion H; fail); try constructor; inversion H; subst;
    try assumption; apply IH; assumption.
Qed.

Lemma is_month_column_rename (label : string) :
  is_month_column (rename_label label) = is_month_column label.
Proof.
  unfold rename_label.
  destruct (String.eqb_spec label "Items") as [-> | _]; [reflexivity | ].
  destruct (String.eqb_spec label "Invoice number") as [-> | _]; [reflexivity | ].
  destruct (String.eqb_spec label "Invoice amount") as [-> | _]; reflexivity.
Qed.

Lemma month_column_not (key : string) (months cols : list string) :
  is_month_column key = false ->
  months = filter is_month_column cols ->
  Forall (fun col => col <> key) months.
Proof.
  intros Hkey ->. apply Forall_forall. intros col Hcol ->.
  apply filter_In in Hcol as [_ Hcol]. congruence.
Qed.

Section Normalise.
Context `{P : Pandas}.

Lemma coerce_month_length (df : DataFrame) (col : string) :
  List.length (rows (coerce_month df col)) = List.length (rows df).
Proof.
  unfold coerce_month. apply rows_setitem_length.
  unfold getitem. rewrite !length_map. reflexivity.
Qed.

Lemma coerce_month_other (df : DataFrame) (col k : string) (d : value) :
  col <> k -> column_values (coerce_month df col) k d = column_values df k d.
Proof.
  intros Hne. unfold coerce_month. apply column_values_setitem_other; [ | assumption].
  unfold getitem. rewrite !length_map. reflexivity.
Qed.

Lemma fold_coerce_month_length (months : list string) (df : DataFrame) :
  List.length (rows (fold_left coerce_month months df)) = List.length (rows df).
Proof.
  revert df. induction months as [ | col months IH]; intros df; simpl;
    [reflexivity | ].
  rewrite IH. apply coerce_month_length.
Qed.

Lemma fold_coerce_month_other (months : list string) (df : DataFrame)
    (k : string) (d : value) :
  Forall (fun col => col <> k) months ->
  column_values (fold_left coerce_month months df) k d = column_values df k d.
Proof.
  revert df. induction months as [ | col months IH]; intros df Hne; simpl;
    [reflexivity | ].
  inversion Hne; subst. rewrite IH by assumption. apply coerce_month_other. assumption.
Qed.


Lemma finish_schedule_reference (df : DataFrame) (months : list string) (d : value) :
  Forall (fun col => col <> "Reference") months ->
  column_values (finish_schedule df months) "Reference" d
  = column_values df "Reference" d.
Proof.
  intros Hne. unfold finish_schedule. destruct (in_columns _ _).
  - apply fold_coerce_month_other. assumption.
  - unfold setitem_scalar.
    rewrite column_values_setitem_other by (try apply repeat_length; discriminate).
    apply fold_coerce_month_other. assumption.
Qed.

Lemma normalise_schedule_inv (raw df : DataFrame) (cols : list string) :
  normalise_schedule raw = Returned (df, cols) ->
  exists df1,
    coerce_reference raw = Returned df1
    /\ cols = filter is_month_column (columns df1)
    /\ cols <> []
    /\ df = finish_schedule df1 cols.
Proof.
  unfold normalise_schedule.
  destruct (coerce_reference raw) as [df1 | ]; simpl; try discriminate.
  destruct (filter is_month_column (columns df1)) as [ | col months] eqn:Hmonths;
    cbn [bind]; try discriminate.
  intros H. assert (Hdf : df = finish_schedule df1 (col :: months)) by (unfold finish_schedule; congruence).
  assert (Hcols : cols = col :: months) by congruence.
  exists df1. rewrite Hmonths, Hcols. repeat split; try assumption.
  discriminate.
Qed.


Lemma coerce_reference_present (raw df1 : DataFrame) :
  In "Reference" (columns raw) ->
  coerce_reference raw = Returned df1 ->
  exists ints,
    astype_Int64 (map to_numeric (getitem raw "Reference")) = Returned ints
    /\ df1 = setitem raw "Reference" ints.
Proof.
  intros Hin. unfold coerce_reference.
  apply (count_occ_In string_dec) in Hin.
  destruct (count_occ string_dec (columns raw) "Reference") as [ | [ | n]];
    try lia; try discriminate.
  destruct (astype_Int64 _) as [ints | ]; simpl; try discriminate.
  intros H. injection H as <-. exists ints. split; reflexivity.
Qed.

Lemma coerce_reference_absent (raw : DataFrame) :
  ~ In "Reference" (columns raw) ->
  coerce_reference raw = Returned (setitem_scalar raw "Reference" (VStr "N/A")).
Proof.
  intros Hnot. unfold coerce_reference.
  apply (count_occ_not_In string_dec) in Hnot. rewrite Hnot. reflexivity.
Qed.

Lemma astype_Int64_length (nums : list (option float64)) (ints : list value) :
  astype_Int64 nums = Returned ints -> List.length ints = List.length nums.
Proof.
  intros H. apply mapM_Forall2 in H. symmetry. apply (Forall2_length H).
Qed.

Lemma load_Some (file : option (list (list string))) (r : DataFrame * list string) :
  load_prepayment_schedule file = Some r <-> load_body file = Returned r.
Proof.
  unfold load_prepayment_schedule. destruct (load_body file) as [r' | e];
    [ | destruct e]; split; intros H; try discriminate; congruence.
Qed.

Lemma load_None (file : option (list (list string))) :
  load_prepayment_schedule file = None <-> exists e, load_body file = Raised e.
Proof.
  unfold load_prepayment_schedule. destruct (load_body file) as [r' | e].
  - split; [discriminate | intros [e H]; discriminate].
  - split; [intros _; exists e; reflexivity | intros _; destruct e; reflexivity].
Qed.

Lemma load_body_after_read (file : option (list (list string))) (raw : DataFrame) :
  read_schedule file = Returned raw -> load_body file = normalise_schedule raw.
Proof. intros H. unfold load_body. rewrite H. reflexivity. Qed.

End Normalise.

(** ** The loader: references *)

Lemma uint_text_no_point (d : Decimal.uint) :
  contains "." (NilEmpty.string_of_uint d) = false.
Proof. induction d; simpl; try assumption; reflexivity. Qed.

(** [str] of an integer has no decimal point. *)
Lemma str_int_no_point (z : Z) : contains "." (str_int z) = false.
Proof.
  unfold str_int, NilZero.string_of_int, NilZero.string_of_uint.
  destruct (Z.to_int z) as [d | d]; destruct d; try reflexivity;
    try (apply (uint_text_no_point (Decimal.D0 d)));
    cbn [contains Ascii.eqb Bool.eqb orb];
    match goal with
    | |- contains "." (NilEmpty.string_of_uint ?u) = false => apply (uint_text_no_point u)
    | _ => idtac
    end.
Qed.

Lemma is_integral_exact (x : float64) :
  is_integral x = true -> exists q, x = Finite q /\ (inject_Z (int_of x) == q)%Q.
Proof.
  destruct x as [[n d] | negative]; [ | discriminate].
  unfold is_integral, int_of, Qeq. cbn [Qnum Qden inject_Z].
  intros H. apply Z.eqb_eq in H. apply Z.div_exact in H; [ | lia].
  eexists. split; [reflexivity | ]. cbn [Qnum Qden]. lia.
Qed.

Lemma Forall2_In_l {A B : Type} (R : A -> B -> Prop) (l : list A) (l' : list B)
    (a : A) :
  Forall2 R l l' -> In a l -> exists b, R a b.
Proof.
  induction 1 as [ | x y l l' Hxy _ IH]; intros Hin; [contradiction | ].
  destruct Hin as [<- | Hin]; [exists y; assumption | apply IH; assumption].
Qed.

Section LoaderReferences.
Context `{P : Pandas}.

(** One cell through [pd.to_numeric] and the [Int64] cast. *)
Lemma cast_Int64_stored (cell stored : value) :
  cast_Int64 (to_numeric cell) = Returned stored -> reference_stored cell stored.
Proof.
  intros H. split.
  - intros x Hx. rewrite Hx in H. simpl in H.
    destruct (is_integral x && in_int64 (int_of x)) eqn:Hok; try discriminate.
    injection H as <-. apply andb_prop in Hok as [Hint _].
    destruct (is_integral_exact _ Hint) as (q & -> & Hq).
    exists q, (int_of (Finite q)). repeat split.
    + exact Hq.
    + apply str_int_no_point.
  - intros Hq. rewrite Hq in H. injection H as <-. split; reflexivity.
Qed.

(** The reference column of a loaded frame, when the source has one. *)
Lemma load_reference_column (file : option (list (list string)))
    (raw df : DataFrame) (cols : list string) :
  read_schedule file = Returned raw ->
  In "Reference" (columns raw) ->
  load_prepayment_schedule file = Some (df, cols) ->
  astype_Int64 (map to_numeric (getitem raw "Reference"))
  = Returned (column_values df "Reference" VNA).
Proof.
  intros Hread Hin Hload.
  apply load_Some in Hload. rewrite (load_body_after_read _ _ Hread) in Hload.
  destruct (normalise_schedule_inv _ _ _ Hload) as (df1 & Href & Hcols & _ & ->).
  destruct (coerce_reference_present _ _ Hin Href) as (ints & Hints & ->).
  rewrite finish_schedule_reference
    by (apply (month_column_not "Reference" _ _ eq_refl Hcols)).
  rewrite column_values_setitem_same.
  - assumption.
  - rewrite (astype_Int64_length _ _ Hints). unfold getitem.
    rewrite !length_map. reflexivity.
  - apply (aligned_read_schedule _ _ Hread).
Qed.

Lemma load_reference_rows (file : option (list (list string)))
    (raw df : DataFrame) (cols : list string) :
  read_schedule file = Returned raw ->
  In "Reference" (columns raw) ->
  load_prepayment_schedule file = Some (df, cols) ->
  Forall2
    (fun row loaded =>
       cast_Int64 (to_numeric (series_get row "Reference" VNaN))
       = Returned (series_get loaded "Reference" VNA))
    (rows raw) (rows df).
Proof.
  intros Hread Hin Hload.
  pose proof (load_reference_column _ _ _ _ Hread Hin Hload) as Hcast.
  apply mapM_Forall2 in Hcast. unfold getitem, column_values in Hcast.
  rewrite map_map in Hcast.
  apply (proj1 (Forall2_maps (fun n v => cast_Int64 n = Returned v) _ _ _ _) Hcast).
Qed.

(** C10: when the source has a reference column and one of its cells, in
    a row that is kept, reads as a number that is not whole, the load fails
    as a whole. *)
Theorem fractional_reference_aborts_load (file : option (list (list string)))
    (raw : DataFrame) (row : Series) (q : float64) :
  read_schedule file = Returned raw ->
  In "Reference" (columns raw) ->
  In row (rows raw) ->
  to_numeric (series_get row "Reference" VNaN) = Some q ->
  is_integral q = false ->
  load_prepayment_schedule file = None.
Proof.
  intros Hread Hin Hrow Hq Hfrac.
  destruct (load_prepayment_schedule file) as [[df cols] | ] eqn:Hload;
    [ | reflexivity].
  exfalso.
  pose proof (load_reference_rows _ _ _ _ Hread Hin Hload) as Hcast.
  destruct (Forall2_In_l _ _ _ _ Hcast Hrow) as (loaded & Hbad).
  rewrite Hq in Hbad. simpl in Hbad. rewrite Hfrac in Hbad. discriminate.
Qed.

End LoaderReferences.

(** ** The loader: outcomes *)

Lemma filter_month_rename (header : list string) :
  filter is_month_column (map rename_label header) = filter is_month_column header.
Proof.
  induction header as [ | label header IH]; simpl; [reflexivity | ].
  rewrite is_month_column_rename, IH.
  destruct (is_month_column label) eqn:Hm; [ | reflexivity].
  f_equal. unfold rename_label.
  destruct (String.eqb_spec label "Items") as [-> | _]; [discriminate | ].
  destruct (String.eqb_spec label "Invoice number") as [-> | _]; [discriminate | ].
  destruct (String.eqb_spec label "Invoice amount") as [-> | _];
    [discriminate | reflexivity].
Qed.


Section LoaderOutcomes.
Context `{P : Pandas}.

(** The reference stage leaves the month columns as they are. *)
Lemma coerce_reference_months (raw df1 : DataFrame) :
  coerce_reference raw = Returned df1 ->
  filter is_month_column (columns df1) = filter is_month_column (columns raw).
Proof.
  unfold coerce_reference.
  destruct (count_occ string_dec (columns raw) "Reference") as [ | [ | n]];
    try discriminate.
  - intros H. injection H as <-. unfold setitem_scalar. rewrite columns_setitem.
    destruct (in_columns _ _); [reflexivity | ].
    rewrite filter_app. simpl. apply app_nil_r.
  - destruct (astype_Int64 _) as [ints | ]; simpl; try discriminate.
    intros H. injection H as <-. rewrite columns_setitem.
    destruct (in_columns _ _); [reflexivity | ].
    rewrite filter_app. simpl. apply app_nil_r.
Qed.

Lemma coerce_reference_length (raw df1 : DataFrame) :
  coerce_reference raw = Returned df1 ->
  List.length (rows df1) = List.length (rows raw).
Proof.
  unfold coerce_reference.
  destruct (count_occ string_dec (columns raw) "Reference") as [ | [ | n]];
    try discriminate.
  - intros H. injection H as <-. unfold setitem_scalar.
    apply rows_setitem_length, repeat_length.
  - destruct (astype_Int64 _) as [ints | ] eqn:Hints; simpl; try discriminate.
    intros H. injection H as <-. apply rows_setitem_length.
    rewrite (astype_Int64_length _ _ Hints). unfold getitem.
    rewrite !length_map. reflexivity.
Qed.



(** C9: when the source has no reference column, the loaded frame has at
    least one record and the period is read and found among the month
    columns, the generator does not return: [int('N/A')] raises
    [ValueError] on the first record. *)
Theorem absent_reference_breaks_generation (file : option (list (list string)))
    (raw df : DataFrame) (cols : list string) (target : string) (y m : Z) :
  read_schedule file = Returned raw ->
  ~ In "Reference" (columns raw) ->
  load_prepayment_schedule file = Some (df, cols) ->
  rows df <> [] ->
  strptime_Y_m target = Returned (y, m) ->
  in_columns (strftime_b_y y m) cols = true ->
  generate_accounting_entries df cols target = Raised ValueError.
Proof.
  intros Hread Hnot Hload Hrows Hparse Hcol.
  apply load_Some in Hload. rewrite (load_body_after_read _ _ Hread) in Hload.
  destruct (normalise_schedule_inv _ _ _ Hload) as (df1 & Href & Hcols & _ & Hdf).
  rewrite (coerce_reference_absent _ Hnot) in Href. injection Href as <-.
  assert (Hcolumn : column_values df "Reference" VNA
                    = repeat (VStr "N/A") (List.length (rows raw))).
  { rewrite Hdf.
    rewrite finish_schedule_reference
      by (apply (month_column_not "Reference" _ _ eq_refl Hcols)).
    unfold setitem_scalar. apply column_values_setitem_same.
    - apply repeat_length.
    - apply (aligned_read_schedule _ _ Hread). }
  unfold generate_accounting_entries. rewrite Hparse, Hcol. cbn [negb].
  unfold column_values in Hcolumn.
  destruct (rows df) as [ | row rest]; [contradiction | ].
  destruct (List.length (rows raw)) as [ | n]; [discriminate | ].
  cbn [map repeat] in Hcolumn. injection Hcolumn as Hfirst _.
  cbn [iterrows_loop]. unfold row_entries. rewrite Hfirst. reflexivity.
Qed.

(** C6, as the script has it: a missing file, a file with nothing after
    its two leading lines and a file whose header has no month column all
    make the loader return the one value [None]; the class of the exception
    that was caught is not part of what the caller receives. *)
Theorem load_failure_is_untagged (file : option (list (list string))) :
  (file = None ->
     load_body file = Raised FileNotFoundError
     /\ load_prepayment_schedule file = None)
  /\ (forall lines,
        file = Some lines -> skipn 2 lines = [] ->
        load_body file = Raised EmptyDataError
        /\ load_prepayment_schedule file = None)
  /\ (forall lines header body,
        file = Some lines -> skipn 2 lines = header :: body ->
        filter is_month_column header = [] ->
        (exists e, load_body file = Raised e)
        /\ load_prepayment_schedule file = None).
Proof.
  split; [ | split].
  - intros ->. split; reflexivity.
  - intros lines -> Hskip.
    assert (Hbody : load_body (Some lines) = Raised EmptyDataError).
    { unfold load_body, read_schedule, read_csv. rewrite Hskip. reflexivity. }
    split; [exact Hbody | ].
    unfold load_prepayment_schedule. rewrite Hbody. reflexivity.
  - intros lines header body -> Hskip Hmonths.
    assert (Hbody : exists e, load_body (Some lines) = Raised e).
    { destruct (read_schedule (Some lines)) as [raw | e] eqn:Hread.
      - rewrite (load_body_after_read _ _ Hread).
        destruct (read_schedule_inv _ _ Hread)
          as (lines' & header' & body' & kept & Hfile & Hskip' & _ & Hraw).
        injection Hfile as <-. rewrite Hskip in Hskip'. injection Hskip' as <- <-.
        unfold normalise_schedule.
        destruct (coerce_reference raw) as [df1 | e] eqn:Href; cbn [bind].
        + rewrite (coerce_reference_months _ _ Href), Hraw. cbn [columns].
          rewrite filter_month_rename, Hmonths. exists ValueError. reflexivity.
        + exists e. reflexivity.
      - exists e. unfold load_body. rewrite Hread. reflexivity. }
    split; [exact Hbody | apply load_None; exact Hbody].
Qed.

End LoaderOutcomes.

(** ** The loader on the examples *)

Example example_file_reads : read_schedule example_file = Returned example_raw.
Proof. reflexivity. Qed.

Example example_file_loads :
  load_prepayment_schedule example_file = Some (example_frame, example_months).
Proof. reflexivity. Qed.

(** The cells of the specification: "46248", "N/A" and a blank. *)
Example reference_46248 :
  cast_Int64 (to_numeric (read_cell "46248")) = Returned (VInt 46248)
  /\ reference_text (VInt 46248) = Returned "46248".
Proof. split; reflexivity. Qed.

Example reference_not_available :
  cast_Int64 (to_numeric (read_cell "N/A")) = Returned VNA
  /\ cast_Int64 (to_numeric (read_cell "")) = Returned VNA
  /\ cast_Int64 (to_numeric (read_cell "pending")) = Returned VNA
  /\ reference_text VNA = Returned "N/A".
Proof. repeat split; reflexivity. Qed.

Lemma fractional_reference_aborts_load_example :
  load_prepayment_schedule fractional_file = None.
Proof.
  apply (fractional_reference_aborts_load (P := plain_pandas) fractional_file
           {| columns := ["Prepayment Item"; "Reference"; "Jan-24"];
              rows := [ [("Prepayment Item", VStr "Insurance");
                         ("Reference", VStr "1001"); ("Jan-24", VStr "-100.00")];
                        [("Prepayment Item", VStr "Rent");
                         ("Reference", VStr "462.5"); ("Jan-24", VStr "-50.00")] ] |}
           [("Prepayment Item", VStr "Rent");
            ("Reference", VStr "462.5"); ("Jan-24", VStr "-50.00")]
           (double (4625 # 10))).
  - reflexivity.
  - simpl. auto.
  - simpl. auto.
  - reflexivity.
  - reflexivity.
Defined.



Example unreferenced_file_loads :
  load_prepayment_schedule unreferenced_file = Some (unreferenced_frame, ["Jan-24"]).
Proof. reflexivity. Qed.

Lemma absent_reference_breaks_generation_example :
  generate_accounting_entries unreferenced_frame ["Jan-24"] "2024-01"
  = Raised ValueError.
Proof.
  apply (absent_reference_breaks_generation (P := plain_pandas) unreferenced_file
           {| columns := ["Prepayment Item"; "Total Amount"; "Jan-24"];
              rows := [ [("Prepayment Item", VStr "Insurance");
                         ("Total Amount", VStr "1200");
                         ("Jan-24", VStr "-100.00")] ] |}
           unreferenced_frame ["Jan-24"] "2024-01" 2024 1).
  - reflexivity.
  - simpl. intros [H | [H | [H | []]]]; discriminate.
  - reflexivity.
  - discriminate.
  - reflexivity.
  - reflexivity.
Defined.

(** The same frame and a period outside the schedule: the loop is not
    entered and the generator returns. *)
Example absent_reference_absent_period :
  generate_accounting_entries unreferenced_frame ["Jan-24"] "2024-02" = Returned [].
Proof. reflexivity. Qed.

Lemma load_failure_is_untagged_example :
  load_prepayment_schedule None = None
  /\ load_prepayment_schedule (Some [["Prepayment schedule"]; ["Financial year 2024"]])
     = None
  /\ load_prepayment_schedule monthless_file = None.
Proof.
  split; [ | split].
  - apply (proj1 (load_failure_is_untagged (P := plain_pandas) None) eq_refl).
  - apply (proj1 (proj2 (load_failure_is_untagged (P := plain_pandas) _))
             [["Prepayment schedule"]; ["Financial year 2024"]] eq_refl eq_refl).
  - apply (proj2 (proj2 (load_failure_is_untagged (P := plain_pandas) monthless_file))
             _ ["Items"; "Invoice number"; "Total"] [["Insurance"; "1001"; "-100.00"]]
             eq_refl eq_refl eq_refl).
Defined.

(** C6, as the specification states it, fails: the three failures are
    caught as three different exceptions, and the loader returns [None] for
    each, so no function of the returned value gives the category back. *)
Lemma load_failures_not_distinguishable :
  load_body None = Raised FileNotFoundError
  /\ load_body (Some []) = Raised EmptyDataError
  /\ load_body monthless_file = Raised ValueError
  /\ ~ exists category : option (DataFrame * list string) -> exn,
         category (load_prepayment_schedule None) = FileNotFoundError
         /\ category (load_prepayment_schedule (Some [])) = EmptyDataError
         /\ category (load_prepayment_schedule monthless_file) = ValueError.
Proof.
  repeat split; try reflexivity.
  intros (category & Hmissing & Hempty & _).
  change (load_prepayment_schedule None)
    with (@None (DataFrame * list string)) in Hmissing.
  change (load_prepayment_schedule (Some []))
    with (@None (DataFrame * list string)) in Hempty.
  congruence.
Qed.

(** ** From the loader to the generator *)

Lemma Forall2_In_r {A B : Type} (R : A -> B -> Prop) (l : list A) (l' : list B)
    (b : B) :
  Forall2 R l l' -> In b l' -> exists a, R a b.
Proof.
  induction 1 as [ | x y l l' Hxy _ IH]; intros Hin; [contradiction | ].
  destruct Hin as [<- | Hin]; [exists x; assumption | apply IH; assumption].
Qed.

Section LoaderTypes.
Context `{P : Pandas}.

Lemma aligned_coerce_month (df : DataFrame) (col : string) :
  aligned df -> aligned (coerce_month df col).
Proof. apply aligned_setitem. Qed.

Lemma coerce_month_floats (df : DataFrame) (col : string) (d : value) :
  aligned df ->
  Forall (fun v => is_float v = true) (column_values (coerce_month df col) col d).
Proof.
  intros Hal. unfold coerce_month. rewrite column_values_setitem_same.
  - apply Forall_map, Forall_forall. intros v _. unfold numeric_fillna0.
    destruct (to_numeric v); reflexivity.
  - unfold getitem. rewrite !length_map. reflexivity.
  - assumption.
Qed.

Lemma fold_coerce_month_floats (label : string) (d : value) (months : list string) :
  forall df,
    aligned df ->
    In label months
    \/ Forall (fun v => is_float v = true) (column_values df label d) ->
    Forall (fun v => is_float v = true)
      (column_values (fold_left coerce_month months df) label d).
Proof.
  induction months as [ | col months IH]; intros df Hal Hcase; simpl.
  - destruct Hcase as [[] | Hfloats]. assumption.
  - apply IH; [apply aligned_coerce_month; assumption | ].
    destruct (string_dec col label) as [-> | Hne].
    + right. apply coerce_month_floats. assumption.
    + destruct Hcase as [[Heq | Hin] | Hfloats]; [contradiction | left; assumption | ].
      right. rewrite coerce_month_other; assumption.
Qed.

Lemma cast_Int64_typed (n : option float64) (v : value) :
  cast_Int64 n = Returned v -> reference_typed v = true.
Proof.
  unfold cast_Int64. destruct n as [q | ].
  - destruct (_ && _); [ | discriminate]. intros H. injection H as <-. reflexivity.
  - intros H. injection H as <-. reflexivity.
Qed.

(** The rows of a frame loaded from a source with a reference column are
    rows of a schedule, for every month column the loader reports. *)
Lemma loaded_rows_are_schedule_rows (file : option (list (list string)))
    (raw df : DataFrame) (cols : list string) (label : string) :
  read_schedule file = Returned raw ->
  In "Reference" (columns raw) ->
  load_prepayment_schedule file = Some (df, cols) ->
  in_columns label cols = true ->
  forallb (is_schedule_row label) (rows df) = true.
Proof.
  intros Hread Hin Hload Hlabel.
  pose proof (load_reference_rows _ _ _ _ Hread Hin Hload) as Hrefs.
  apply load_Some in Hload. rewrite (load_body_after_read _ _ Hread) in Hload.
  destruct (normalise_schedule_inv _ _ _ Hload) as (df1 & Href & Hcols & _ & Hdf).
  destruct (coerce_reference_present _ _ Hin Href) as (ints & _ & Hdf1).
  apply in_columns_In in Hlabel.
  assert (Hmonth : is_month_column label = true).
  { rewrite Hcols in Hlabel. apply filter_In in Hlabel. tauto. }
  assert (Hfloats : Forall (fun v => is_float v = true)
                      (column_values df label (VInt 0))).
  { rewrite Hdf. unfold finish_schedule.
    assert (Hfold : Forall (fun v => is_float v = true)
                      (column_values (fold_left coerce_month cols df1) label (VInt 0))).
    { apply fold_coerce_month_floats; [ | left; assumption].
      rewrite Hdf1. apply aligned_setitem, (aligned_read_schedule _ _ Hread). }
    destruct (in_columns _ _); [assumption | ].
    unfold setitem_scalar. rewrite column_values_setitem_other; [assumption | | ].
    - apply repeat_length.
    - intros <-. discriminate. }
  apply forallb_forall. intros row Hrow. unfold is_schedule_row.
  apply andb_true_intro. split.
  - destruct (Forall2_In_r _ _ _ _ Hrefs Hrow) as (source & Hcast).
    apply (cast_Int64_typed _ _ Hcast).
  - rewrite Forall_forall in Hfloats. apply Hfloats.
    unfold column_values. apply in_map_iff. exists row. split; [reflexivity | assumption].
Qed.

(** So the generator returns on every frame loaded from a source with a
    reference column, whatever the period. *)
Lemma generate_returns_on_loaded (file : option (list (list string)))
    (raw df : DataFrame) (cols : list string) (target : string) :
  read_schedule file = Returned raw ->
  In "Reference" (columns raw) ->
  load_prepayment_schedule file = Some (df, cols) ->
  exists es, generate_accounting_entries df cols target = Returned es.
Proof.
  intros Hread Hin Hload.
  destruct (strptime_Y_m target) as [[y m] | e] eqn:Hparse.
  - destruct (in_columns (strftime_b_y y m) cols) eqn:Hcol.
    + destruct (generate_over_schedule df cols target y m Hparse Hcol)
        as (groups & Hgen & _).
      * apply (loaded_rows_are_schedule_rows _ _ _ _ _ Hread Hin Hload Hcol).
      * eexists. exact Hgen.
    + exists []. unfold generate_accounting_entries. rewrite Hparse, Hcol. reflexivity.
  - exists []. unfold generate_accounting_entries.
    rewrite Hparse, (strptime_raises_ValueError _ _ Hparse). reflexivity.
Qed.

End LoaderTypes.

(** ** From the reference cells to the postings *)

Lemma Forall2_and_r {A B : Type} (R : A -> B -> Prop) (S : B -> Prop)
    (l : list A) (l' : list B) :
  Forall2 R l l' -> Forall S l' -> Forall2 (fun a b => R a b /\ S b) l l'.
Proof.
  induction 1 as [ | a b l l' Hab _ IH]; intros Hall; [constructor | ].
  inversion Hall; subst. constructor; [split; assumption | apply IH; assumption].
Qed.

Section ReferencesShown.
Context `{P : Pandas}.

(** C5, as the script has it: when the source has a reference column and
    the load succeeds, every reference cell that reads as a number is
    stored as that whole number and every reference cell that does not is
    stored as the missing marker; the loop body returns on the loaded
    record for every month column, and each posting it makes carries the
    plain digits of the number, without a decimal point, or "N/A". *)
Theorem reference_cells_stored_and_shown (file : option (list (list string)))
    (raw df : DataFrame) (cols : list string) (date label : string) :
  read_schedule file = Returned raw ->
  In "Reference" (columns raw) ->
  load_prepayment_schedule file = Some (df, cols) ->
  in_columns label cols = true ->
  Forall2
    (fun row loaded =>
       reference_stored (series_get row "Reference" VNaN)
                        (series_get loaded "Reference" VNA)
       /\ exists es,
            row_entries date label loaded = Returned es
            /\ reference_posted (series_get row "Reference" VNaN) es)
    (rows raw) (rows df).
Proof.
  intros Hread Hin Hload Hlabel.
  pose proof (load_reference_rows _ _ _ _ Hread Hin Hload) as Hcast.
  pose proof (loaded_rows_are_schedule_rows _ _ _ _ _ Hread Hin Hload Hlabel) as Hrows.
  rewrite forallb_forall in Hrows. apply Forall_forall in Hrows.
  pose proof (Forall2_and_r _ _ _ _ Hcast Hrows) as Hboth.
  cbv beta in Hboth. revert Hboth. apply Forall2_impl.
  intros row loaded [Hc Hs].
  pose proof (cast_Int64_stored _ _ Hc) as Hstored.
  split; [exact Hstored | ].
  destruct (row_entries_schedule_row date label loaded Hs)
    as (x & text & _ & Htext & Hes).
  eexists. split; [exact Hes | ].
  destruct Hstored as [Hnum Hnan]. split.
  - intros n Hn. destruct (Hnum n Hn) as (q & z & -> & Hq & _ & Hshown & Hpoint).
    exists q, z. split; [reflexivity | ]. split; [exact Hq | ].
    assert (Heq : text = str_int z) by congruence. subst text.
    destruct (exceeds_threshold x); repeat constructor; assumption.
  - intros Hn. destruct (Hnan Hn) as [_ Hshown].
    assert (Heq : text = "N/A") by congruence. subst text.
    destruct (exceeds_threshold x); repeat constructor.
Qed.

End ReferencesShown.

Lemma reference_cells_stored_and_shown_example :
  Forall2
    (fun row loaded =>
       reference_stored (series_get row "Reference" VNaN)
                        (series_get loaded "Reference" VNA)
       /\ exists es,
            row_entries "31/01/2024" "Jan-24" loaded = Returned es
            /\ reference_posted (series_get row "Reference" VNaN) es)
    (rows example_raw) (rows example_frame).
Proof.
  apply (reference_cells_stored_and_shown (P := plain_pandas)
           example_file example_raw example_frame example_months
           "31/01/2024" "Jan-24").
  - reflexivity.
  - simpl. auto.
  - reflexivity.
  - reflexivity.
Defined.

(** The postings of the record whose reference cell is "46248". *)
Example reference_46248_posted :
  exists debit credit,
    row_entries "31/01/2024" "Jan-24"
      [("Prepayment Item", VStr "Licence"); ("Reference", VInt 46248);
       ("Total Amount", VStr "60");
       ("Jan-24", VFloat (double (6 # 1000))); ("Feb-24", VFloat f_zero)]
    = Returned [debit; credit]
    /\ Reference debit = "46248" /\ Reference credit = "46248".
Proof. do 2 eexists. repeat split. Qed.

(** C5, as the specification states it, fails: the cell "46248" reads as a
    number, but the file does not load, because another reference cell is
    462.5, so the cell is stored nowhere and appears in no posting. *)
Lemma whole_reference_beside_fractional :
  mixed_reference_file
  = Some [ ["Prepayment schedule"]; ["Financial year 2024"];
           ["Items"; "Invoice number"; "Jan-24"];
           ["Licence"; "46248"; "-100.00"];
           ["Rent"; "462.5"; "-50.00"] ]
  /\ to_numeric (read_cell "46248") = Some (double (inject_Z 46248))
  /\ cast_Int64 (Some (double (inject_Z 46248))) = Returned (VInt 46248)
  /\ to_numeric (read_cell "462.5") = Some (double (4625 # 10))
  /\ cast_Int64 (Some (double (4625 # 10))) = Raised TypeError
  /\ load_body mixed_reference_file = Raised TypeError
  /\ load_prepayment_schedule mixed_reference_file = None.
Proof. repeat split; reflexivity. Qed.

(** * Further properties *)

(** ** Splitting a label *)

Lemma split_nonempty (sep : ascii) (s : string) : split sep s <> [].
Proof.
  destruct s as [ | c s]; simpl; [discriminate | ].
  destruct (Ascii.eqb c sep); [discriminate | ].
  destruct (split sep s); discriminate.
Qed.

(** Joining what [split] gives returns the text. *)
Lemma join_split (sep : ascii) (s : string) : join sep (split sep s) = s.
Proof.
  induction s as [ | c s IH]; [reflexivity | ].
  cbn [split]. destruct (Ascii.eqb_spec c sep) as [-> | Hne].
  - pose proof (split_nonempty sep s) as Hs.
    destruct (split sep s) as [ | seg segs] eqn:E; [contradiction | ].
    cbn [join] in *. rewrite IH. reflexivity.
  - pose proof (split_nonempty sep s) as Hs.
    destruct (split sep s) as [ | seg segs] eqn:E; [contradiction | ].
    cbn [join] in *. destruct segs as [ | seg' segs].
    + rewrite IH. reflexivity.
    + rewrite <- IH. reflexivity.
Qed.

Lemma split_without_sep (sep : ascii) (s : string) :
  contains sep s = false -> split sep s = [s].
Proof.
  induction s as [ | c s IH]; [reflexivity | ].
  cbn [contains split]. intros H. apply orb_false_elim in H as [Hc Hs].
  rewrite Hc, (IH Hs). reflexivity.
Qed.

Lemma split_at_first_sep (sep : ascii) (a t : string) :
  contains sep a = false -> split sep (a ++ String sep t) = a :: split sep t.
Proof.
  induction a as [ | c a IH]; cbn [append contains split]; intros H.
  - rewrite Ascii.eqb_refl. reflexivity.
  - apply orb_false_elim in H as [Hc Ha]. rewrite Hc, (IH Ha). reflexivity.
Qed.

Lemma contains_append (sep : ascii) (a t : string) :
  contains sep (a ++ t) = contains sep a || contains sep t.
Proof.
  induction a as [ | c a IH]; cbn [append contains]; [reflexivity | ].
  rewrite IH, orb_assoc. reflexivity.
Qed.

Lemma isalpha_no_dash (s : string) : isalpha s = true -> contains dash s = false.
Proof.
  unfold isalpha. intros H. apply andb_prop in H as [_ H].
  induction s as [ | c s IH]; [reflexivity | ].
  cbn [string_forallb contains] in *. apply andb_prop in H as [Hc Hs].
  rewrite (char_isalpha_not_dash _ Hc), (IH Hs). reflexivity.
Qed.

Lemma isdigit_no_dash (s : string) : isdigit s = true -> contains dash s = false.
Proof.
  unfold isdigit. intros H. apply andb_prop in H as [_ H].
  induction s as [ | c s IH]; [reflexivity | ].
  cbn [string_forallb contains] in *. apply andb_prop in H as [Hc Hs].
  rewrite (char_isdigit_not_dash _ Hc), (IH Hs). reflexivity.
Qed.

Lemma append_empty_r (s : string) : s ++ "" = s.
Proof. induction s as [ | c s IH]; simpl; [ | rewrite IH]; reflexivity. Qed.

(** X1: the labels the loader takes as month columns are exactly the
    labels of six characters that begin with letters, a dash and digits,
    after which the label ends or goes on with another dash. *)
Theorem is_month_column_characterised (col : string) :
  is_month_column col = true
  <-> String.length col = 6%nat
      /\ exists letters digits rest,
           col = letters ++ String dash (digits ++ rest)
           /\ isalpha letters = true
           /\ isdigit digits = true
           /\ (rest = "" \/ exists more, rest = String dash more).
Proof.
  unfold is_month_column. split.
  - intros H. repeat (apply andb_prop in H as [H ?Hx]).
    apply Nat.eqb_eq in H. split; [assumption | ].
    pose proof (join_split dash col) as Hjoin.
    destruct (split dash col) as [ | a [ | b tl]]; cbn [nth] in *;
      try discriminate.
    exists a, b. cbn [join] in Hjoin. destruct tl as [ | c tl].
    + exists "". rewrite append_empty_r. repeat split; auto.
    + exists (String dash (join dash (c :: tl))).
      repeat split; eauto.
  - intros (Hlen & letters & digits & rest & -> & Ha & Hd & Hrest).
    rewrite Hlen. cbn [Nat.eqb andb].
    rewrite contains_append. cbn [contains]. rewrite Ascii.eqb_refl, orb_true_r.
    rewrite (split_at_first_sep dash _ _ (isalpha_no_dash _ Ha)).
    cbn [nth andb]. rewrite Ha. cbn [andb].
    destruct Hrest as [-> | [more ->]].
    + rewrite append_empty_r, (split_without_sep dash _ (isdigit_no_dash _ Hd)).
      exact Hd.
    + rewrite (split_at_first_sep dash _ _ (isdigit_no_dash _ Hd)). exact Hd.
Qed.

(** ** The loader: what is read *)




Section LoaderFurther.
Context `{P : Pandas}.

Lemma load_stages (lines : list (list string)) (df : DataFrame) (cols : list string) :
  load_prepayment_schedule (Some lines) = Some (df, cols) ->
  exists raw df1,
    read_schedule (Some lines) = Returned raw
    /\ coerce_reference raw = Returned df1
    /\ cols = filter is_month_column (columns df1)
    /\ cols <> []
    /\ df = finish_schedule df1 cols.
Proof.
  intros Hload. apply load_Some in Hload. unfold load_body in Hload.
  destruct (read_schedule (Some lines)) as [raw | ] eqn:Hread; try discriminate.
  cbn [bind] in Hload.
  destruct (normalise_schedule_inv _ _ _ Hload) as (df1 & H1 & H2 & H3 & H4).
  exists raw, df1. repeat split; assumption.
Qed.


(** X3: a file with a header and no data line does not load, whatever the
    header. *)
Theorem header_only_file_fails (lines : list (list string)) (header : list string) :
  skipn 2 lines = [header] ->
  load_prepayment_schedule (Some lines) = None.
Proof.
  intros Hskip. apply load_None. exists IndexError.
  unfold load_body, read_schedule, read_csv. rewrite Hskip. reflexivity.
Qed.


End LoaderFurther.

(** ** The loader: the frame it returns *)

Lemma series_get_default (row : Series) (key : string) (d d' : value) :
  In key (map fst row) -> series_get row key d = series_get row key d'.
Proof.
  induction row as [ | [k v] row IH]; simpl; intros Hin; [contradiction | ].
  destruct (String.eqb_spec k key) as [-> | Hne]; [reflexivity | ].
  apply IH. destruct Hin as [Heq | Hin]; [contradiction | assumption].
Qed.

Lemma column_values_default (df : DataFrame) (key : string) (d d' : value) :
  aligned df -> In key (columns df) ->
  column_values df key d = column_values df key d'.
Proof.
  intros Hal Hin. unfold column_values. apply map_ext_in. intros row Hrow.
  apply series_get_default. unfold aligned in Hal. rewrite Forall_forall in Hal.
  rewrite (Hal row Hrow). assumption.
Qed.

Lemma map_eq_Forall2 {A B C : Type} (f : A -> C) (g : B -> C) (l : list A)
    (l' : list B) :
  map g l' = map f l -> Forall2 (fun a b => g b = f a) l l'.
Proof.
  revert l'. induction l as [ | a l IH]; intros [ | b l'] H; try discriminate;
    constructor; injection H as H1 H2; auto.
Qed.

Lemma in_columns_app (key : string) (cols cols' : list string) :
  in_columns key (cols ++ cols') = in_columns key cols || in_columns key cols'.
Proof. unfold in_columns. apply existsb_app. Qed.

Section LoaderFrame.
Context `{P : Pandas}.

Lemma numeric_fillna0_idempotent (v : value) :
  numeric_fillna0 (numeric_fillna0 v) = numeric_fillna0 v.
Proof. unfold numeric_fillna0. destruct (to_numeric v); reflexivity. Qed.

Lemma columns_coerce_month (df : DataFrame) (col : string) :
  In col (columns df) -> columns (coerce_month df col) = columns df.
Proof.
  intros Hin. unfold coerce_month. rewrite columns_setitem.
  apply in_columns_In in Hin. rewrite Hin. reflexivity.
Qed.

Lemma fold_coerce_month_columns (months : list string) :
  forall df,
    Forall (fun col => In col (columns df)) months ->
    columns (fold_left coerce_month months df) = columns df.
Proof.
  induction months as [ | col months IH]; intros df Hin; simpl; [reflexivity | ].
  inversion Hin as [ | ? ? Hcol Hrest]; subst.
  rewrite IH; rewrite columns_coerce_month by assumption; auto.
Qed.

Lemma fold_coerce_month_aligned (months : list string) :
  forall df, aligned df -> aligned (fold_left coerce_month months df).
Proof.
  induction months as [ | col months IH]; intros df Hal; simpl; [assumption | ].
  apply IH, aligned_coerce_month. assumption.
Qed.

Lemma coerce_month_same (df : DataFrame) (col : string) (d : value) :
  aligned df ->
  column_values (coerce_month df col) col d
  = map numeric_fillna0 (column_values df col VNaN).
Proof.
  intros Hal. unfold coerce_month.
  change (column_values df col VNaN) with (getitem df col).
  apply column_values_setitem_same; [ | assumption].
  unfold getitem. rewrite !length_map. reflexivity.
Qed.

(** The loop over the month columns leaves in each of them the numbers of
    its cells, zero where there is none. *)
Lemma fold_coerce_month_column (label : string) (d : value) (months : list string) :
  forall df,
    aligned df ->
    In label months ->
    column_values (fold_left coerce_month months df) label d
    = map numeric_fillna0 (column_values df label VNaN).
Proof.
  induction months as [ | col months IH]; intros df Hal Hin; [contradiction | ].
  cbn [fold_left].
  destruct (string_dec col label) as [-> | Hne].
  - destruct (in_dec string_dec label months) as [Hmore | Hlast].
    + rewrite IH by (try apply aligned_coerce_month; assumption).
      rewrite coerce_month_same by assumption.
      rewrite map_map. apply map_ext. intros v. apply numeric_fillna0_idempotent.
    + rewrite fold_coerce_month_other.
      * apply coerce_month_same. assumption.
      * apply Forall_forall. intros col Hcol ->. contradiction.
  - destruct Hin as [Heq | Hin]; [contradiction | ].
    rewrite IH by (try apply aligned_coerce_month; assumption).
    rewrite coerce_month_other by assumption. reflexivity.
Qed.

Lemma coerce_reference_columns (raw df1 : DataFrame) :
  coerce_reference raw = Returned df1 ->
  columns df1 = if in_columns "Reference" (columns raw) then columns raw
                else (columns raw ++ ["Reference"])%list.
Proof.
  unfold coerce_reference.
  destruct (count_occ string_dec (columns raw) "Reference") as [ | [ | n]];
    try discriminate.
  - intros H. injection H as <-. apply columns_setitem.
  - destruct (astype_Int64 _) as [ints | ]; cbn [bind]; try discriminate.
    intros H. injection H as <-. apply columns_setitem.
Qed.

Lemma coerce_reference_aligned (raw df1 : DataFrame) :
  aligned raw -> coerce_reference raw = Returned df1 -> aligned df1.
Proof.
  intros Hal. unfold coerce_reference.
  destruct (count_occ string_dec (columns raw) "Reference") as [ | [ | n]];
    try discriminate.
  - intros H. injection H as <-. apply aligned_setitem. assumption.
  - destruct (astype_Int64 _) as [ints | ]; cbn [bind]; try discriminate.
    intros H. injection H as <-. apply aligned_setitem. assumption.
Qed.

Lemma coerce_reference_other (raw df1 : DataFrame) (k : string) (d : value) :
  coerce_reference raw = Returned df1 ->
  k <> "Reference" ->
  column_values df1 k d = column_values raw k d.
Proof.
  intros Href Hne. unfold coerce_reference in Href.
  destruct (count_occ string_dec (columns raw) "Reference") as [ | [ | n]];
    try discriminate.
  - injection Href as <-. unfold setitem_scalar.
    apply column_values_setitem_other; [apply repeat_length | congruence].
  - destruct (astype_Int64 _) as [ints | ] eqn:Hints; cbn [bind] in Href;
      try discriminate.
    injection Href as <-. apply column_values_setitem_other; [ | congruence].
    rewrite (astype_Int64_length _ _ Hints). unfold getitem.
    rewrite !length_map. reflexivity.
Qed.



Lemma month_columns_in (cols : list string) :
  Forall (fun col => In col cols) (filter is_month_column cols).
Proof. apply Forall_forall. intros col Hcol. apply filter_In in Hcol. tauto. Qed.



End LoaderFrame.

(** ** The loader: the cells it keeps and the cells it converts *)

Section LoaderCells.
Context `{P : Pandas}.

Lemma month_label_not_item (label : string) :
  is_month_column label = true ->
  label <> "Reference" /\ label <> "Prepayment Item".
Proof. intros H. split; intros ->; discriminate. Qed.

(** X7: in a loaded frame every cell of a month column is a number: the
    number its text reads as, and zero when the cell is blank or its text is
    no number. *)
Theorem load_month_cells (lines : list (list string)) (raw df : DataFrame)
    (cols : list string) (label : string) :
  read_schedule (Some lines) = Returned raw ->
  load_prepayment_schedule (Some lines) = Some (df, cols) ->
  In label cols ->
  Forall2
    (fun row loaded =>
       series_get loaded label (VInt 0)
       = VFloat (match to_numeric (series_get row label VNaN) with
                 | Some q => q
                 | None => f_zero
                 end))
    (rows raw) (rows df).
Proof.
  intros Hread Hload Hlabel.
  destruct (load_stages _ _ _ Hload) as (raw' & df1 & Hread' & Href & Hcols & _ & ->).
  rewrite Hread in Hread'. injection Hread' as <-.
  pose proof (aligned_read_schedule _ _ Hread) as Hal.
  assert (Hmonth : is_month_column label = true).
  { rewrite Hcols in Hlabel. apply filter_In in Hlabel. tauto. }
  destruct (month_label_not_item _ Hmonth) as [Hnref Hnitem].
  assert (Hcolumn :
    column_values (finish_schedule df1 cols) label (VInt 0)
    = map numeric_fillna0 (column_values raw label VNaN)).
  { unfold finish_schedule.
    assert (Hfold : column_values (fold_left coerce_month cols df1) label (VInt 0)
                    = map numeric_fillna0 (column_values raw label VNaN)).
    { rewrite fold_coerce_month_column
        by (try apply (coerce_reference_aligned _ _ Hal Href); assumption).
      rewrite (coerce_reference_other _ _ _ _ Href Hnref). reflexivity. }
    destruct (in_columns _ _); [exact Hfold | ].
    unfold setitem_scalar.
    rewrite column_values_setitem_other; [exact Hfold | apply repeat_length | ].
    congruence. }
  unfold column_values in Hcolumn. rewrite map_map in Hcolumn.
  apply map_eq_Forall2 in Hcolumn.
  refine (Forall2_impl _ _ Hcolumn).
  intros row loaded ->. unfold numeric_fillna0.
  destruct (to_numeric _); reflexivity.
Qed.

(** X8: the loader leaves the cells of every column that is neither the
    reference column nor a month column as they were read, the item column
    among them; when the header has no item column, every record gets the
    item "Generic Item". *)
Theorem load_other_cells (lines : list (list string)) (raw df : DataFrame)
    (cols : list string) :
  read_schedule (Some lines) = Returned raw ->
  load_prepayment_schedule (Some lines) = Some (df, cols) ->
  (forall label d,
     In label (columns raw) ->
     label <> "Reference" ->
     is_month_column label = false ->
     column_values df label d = column_values raw label d)
  /\ (~ In "Prepayment Item" (columns raw) ->
      forall d,
        column_values df "Prepayment Item" d
        = repeat (VStr "Generic Item") (List.length (rows raw))).
Proof.
  intros Hread Hload.
  destruct (load_stages _ _ _ Hload) as (raw' & df1 & Hread' & Href & Hcols & _ & ->).
  rewrite Hread in Hread'. injection Hread' as <-.
  pose proof (aligned_read_schedule _ _ Hread) as Hal.
  pose proof (coerce_reference_columns _ _ Href) as Hc1.
  assert (Hmonths : forall label, is_month_column label = false ->
                                  Forall (fun col => col <> label) cols).
  { intros label Hlabel. apply (month_column_not label _ _ Hlabel Hcols). }
  assert (Hitem1 : in_columns "Prepayment Item" (columns df1)
                   = in_columns "Prepayment Item" (columns raw)).
  { rewrite Hc1. destruct (in_columns "Reference" (columns raw)); [reflexivity | ].
    rewrite in_columns_app. cbn [in_columns existsb String.eqb].
    apply orb_false_r. }
  assert (Hitem : in_columns "Prepayment Item"
                    (columns (fold_left coerce_month cols df1))
                  = in_columns "Prepayment Item" (columns raw)).
  { rewrite fold_coerce_month_columns; [exact Hitem1 | ].
    rewrite Hcols. apply month_columns_in. }
  split.
  - intros label d Hin Hnref Hnmonth. unfold finish_schedule. rewrite Hitem.
    destruct (in_columns "Prepayment Item" (columns raw)) eqn:E.
    + rewrite fold_coerce_month_other by (apply Hmonths; assumption).
      apply (coerce_reference_other _ _ _ _ Href Hnref).
    + unfold setitem_scalar. rewrite column_values_setitem_other.
      * rewrite fold_coerce_month_other by (apply Hmonths; assumption).
        apply (coerce_reference_other _ _ _ _ Href Hnref).
      * apply repeat_length.
      * intros <-. apply in_columns_not_In in E. contradiction.
  - intros Hnot d. unfold finish_schedule. rewrite Hitem.
    apply in_columns_not_In in Hnot. rewrite Hnot.
    unfold setitem_scalar. rewrite column_values_setitem_same.
    + rewrite fold_coerce_month_length, (coerce_reference_length _ _ Href).
      reflexivity.
    + apply repeat_length.
    + apply fold_coerce_month_aligned, (coerce_reference_aligned _ _ Hal Href).
Qed.

End LoaderCells.

(** ** The generator: what it returns on any frame *)

Lemma ledger_app (es es' : list PostingEntry) :
  ledger es -> ledger es' -> ledger (es ++ es').
Proof.
  induction 1 as [ | debit credit rest Hpair _ IH]; intros H'; [assumption | ].
  cbn [app]. constructor; auto.
Qed.

Section GeneratorFurther.
Context `{P : Pandas}.

(** Whatever the row, the loop body appends nothing or one balanced pair
    when it returns. *)
Lemma row_entries_ledger (date label : string) (row : Series)
    (es : list PostingEntry) :
  row_entries date label row = Returned es -> ledger es.
Proof.
  unfold row_entries. intros H.
  destruct (reference_text _) as [text | ]; cbn [bind] in H; try discriminate.
  destruct (amount_number _) as [[x | ] | ]; cbn [bind] in H; try discriminate.
  - destruct (exceeds_threshold x) eqn:Hx; injection H as <-; [ | constructor].
    constructor; [ | constructor].
    unfold balanced_pair; cbn [Account Amount Date Description Reference].
    rewrite f_add_neg.
    repeat split; try discriminate.
    + apply f_abs_not_negative.
    + intros Hfin. rewrite Hfin. reflexivity.
    + intros Hfin. rewrite Hfin. reflexivity.
  - injection H as <-. constructor.
Qed.

Lemma iterrows_loop_ledger (date label : string) (todo : list Series) :
  forall entries es,
    ledger entries ->
    iterrows_loop date label todo entries = Returned es ->
    ledger es.
Proof.
  induction todo as [ | row todo IH]; cbn [iterrows_loop]; intros entries es Hacc H.
  - injection H as <-. assumption.
  - destruct (row_entries date label row) as [new | ] eqn:Hnew; cbn [bind] in H;
      try discriminate.
    apply (IH _ _ (ledger_app _ _ Hacc (row_entries_ledger _ _ _ _ Hnew)) H).
Qed.

Lemma generate_returns_ledger (df : DataFrame) (cols : list string)
    (target : string) (es : list PostingEntry) :
  generate_accounting_entries df cols target = Returned es -> ledger es.
Proof.
  unfold generate_accounting_entries.
  destruct (strptime_Y_m target) as [[y m] | e].
  - destruct (negb _).
    + intros H. injection H as <-. constructor.
    + apply iterrows_loop_ledger. constructor.
  - destruct e; try discriminate. intros H. injection H as <-. constructor.
Qed.

(** X9: whatever the frame, the month columns and the period, a list the
    generator returns is a sequence of pairs, each a debit on the expense
    account followed by its credit on the prepayment account, with a debit
    amount that is not negative, a credit amount that is its negation, and
    the same date, description and reference; the two amounts add up to
    zero when they are finite and to no number when they are infinite. *)
Theorem generate_returns_pairs (df : DataFrame) (cols : list string)
    (target : string) (es : list PostingEntry) :
  generate_accounting_entries df cols target = Returned es -> ledger es.
Proof. apply generate_returns_ledger. Qed.

Lemma iterrows_loop_same (date label : string) (todo todo' : list Series) :
  Forall2 (fun row row' => row_entries date label row = row_entries date label row')
    todo todo' ->
  forall entries,
    iterrows_loop date label todo entries = iterrows_loop date label todo' entries.
Proof.
  induction 1 as [ | row row' todo todo' Hrow _ IH]; intros entries;
    cbn [iterrows_loop]; [reflexivity | ].
  rewrite Hrow. destruct (row_entries date label row'); cbn [bind];
    [apply IH | reflexivity].
Qed.

Lemma row_entries_same_inputs (date label : string) (row row' : Series) :
  same_inputs label row row' ->
  row_entries date label row = row_entries date label row'.
Proof.
  intros (Hitem & Href & Hamt). unfold row_entries.
  rewrite Hitem, Href, Hamt. reflexivity.
Qed.

(** X11: the postings depend on a frame only through the item, the
    reference and the amount of the target month of each row; other
    columns, other months and the order of the columns change nothing. *)
Theorem generate_reads_three_cells (df df' : DataFrame) (cols : list string)
    (target : string) (y m : Z) :
  strptime_Y_m target = Returned (y, m) ->
  Forall2 (same_inputs (strftime_b_y y m)) (rows df) (rows df') ->
  generate_accounting_entries df cols target
  = generate_accounting_entries df' cols target.
Proof.
  intros Hparse Hrows. unfold generate_accounting_entries. rewrite Hparse.
  destruct (negb _); [reflexivity | ].
  apply iterrows_loop_same.
  apply (Forall2_impl _ (row_entries_same_inputs _ _) Hrows).
Qed.

End GeneratorFurther.

(** ** The generator: signs, centuries and missing cells *)

Lemma exceeds_threshold_opp (x : float64) :
  exceeds_threshold (f_neg x) = exceeds_threshold x.
Proof. unfold exceeds_threshold. rewrite f_abs_neg. reflexivity. Qed.

Lemma abs_round2_opp (x : float64) :
  abs_round2 (VFloat (f_neg x)) (f_neg x) = abs_round2 (VFloat x) x.
Proof.
  unfold abs_round2. cbn [round2]. rewrite !py_round2_abs, f_abs_neg. reflexivity.
Qed.

Lemma negate_amount_cons (label k : string) (v : value) (row : Series) :
  negate_amount label ((k, v) :: row)
  = (if String.eqb k label then (k, negate_value v) else (k, v))
      :: negate_amount label row.
Proof. reflexivity. Qed.

Lemma series_get_negate_other (label key : string) (d : value) (row : Series) :
  key <> label ->
  series_get (negate_amount label row) key d = series_get row key d.
Proof.
  intros Hne. induction row as [ | [k v] row IH]; [reflexivity | ].
  rewrite negate_amount_cons.
  destruct (String.eqb_spec k label) as [-> | Hk]; cbn [series_get];
    rewrite IH; [ | reflexivity].
  destruct (String.eqb_spec label key) as [Heq | _]; [congruence | reflexivity].
Qed.

Lemma series_get_negate_same (label : string) (row : Series) :
  series_get (negate_amount label row) label (VInt 0)
  = negate_value (series_get row label (VInt 0)).
Proof.
  induction row as [ | [k v] row IH]; [reflexivity | ].
  rewrite negate_amount_cons.
  destruct (String.eqb_spec k label) as [-> | Hk]; cbn [series_get].
  - rewrite String.eqb_refl. reflexivity.
  - apply String.eqb_neq in Hk. rewrite Hk. apply IH.
Qed.

Lemma month_abbr_length (m : Z) :
  1 <= m <= 12 -> String.length (month_abbr m) = 3%nat.
Proof.
  intros H.
  assert (Hcases : m = 1 \/ m = 2 \/ m = 3 \/ m = 4 \/ m = 5 \/ m = 6 \/ m = 7
                   \/ m = 8 \/ m = 9 \/ m = 10 \/ m = 11 \/ m = 12) by lia.
  repeat (destruct Hcases as [-> | Hcases]; [reflexivity | ]).
  subst m. reflexivity.
Qed.

(** The label of a period has six characters, so it is neither of the two
    labels the generator reads beside it. *)
Lemma strftime_b_y_other (y m : Z) :
  1 <= m <= 12 ->
  strftime_b_y y m <> "Reference" /\ strftime_b_y y m <> "Prepayment Item".
Proof.
  intros Hm.
  assert (Hlen : String.length (strftime_b_y y m) = 6%nat).
  { unfold strftime_b_y. rewrite !length_append, month_abbr_length, length_zero_pad
      by assumption. reflexivity. }
  split; intros Heq; rewrite Heq in Hlen; discriminate.
Qed.

Section GeneratorSigns.
Context `{P : Pandas}.

Lemma row_entries_negate (date label : string) (row : Series) :
  label <> "Reference" -> label <> "Prepayment Item" ->
  row_entries date label (negate_amount label row) = row_entries date label row.
Proof.
  intros Hnref Hnitem. unfold row_entries.
  rewrite (series_get_negate_other label "Prepayment Item")
    by (intros E; apply Hnitem; symmetry; exact E).
  rewrite (series_get_negate_other label "Reference")
    by (intros E; apply Hnref; symmetry; exact E).
  rewrite series_get_negate_same.
  destruct (reference_text _) as [text | ]; cbn [bind]; [ | reflexivity].
  destruct (series_get row label (VInt 0)) as [ | q | z | | ];
    cbn [negate_value amount_number bind]; try reflexivity.
  - rewrite exceeds_threshold_opp, abs_round2_opp. reflexivity.
  - change (Finite (inject_Z (- z))) with (f_neg (Finite (inject_Z z))).
    rewrite exceeds_threshold_opp. unfold abs_round2. cbn [round2].
    rewrite f_abs_neg. reflexivity.
Qed.

(** X12: the sign of the amounts of the target month carries nothing:
    the frame with these signs changed gives the same postings. *)
Theorem generate_ignores_sign (df : DataFrame) (cols : list string)
    (target : string) (y m : Z) :
  strptime_Y_m target = Returned (y, m) ->
  generate_accounting_entries
    {| columns := columns df;
       rows := map (negate_amount (strftime_b_y y m)) (rows df) |} cols target
  = generate_accounting_entries df cols target.
Proof.
  intros Hparse. unfold generate_accounting_entries. rewrite Hparse.
  destruct (negb _); [reflexivity | ]. cbn [rows].
  apply iterrows_loop_same.
  destruct (strptime_range _ _ _ Hparse) as [_ Hm].
  destruct (strftime_b_y_other y m Hm) as [Hnref Hnitem].
  induction (rows df) as [ | row todo IH]; constructor; [ | exact IH].
  apply row_entries_negate; assumption.
Qed.

Lemma row_entries_without_date (date date' label : string) (row : Series) :
  result_map (map without_date) (row_entries date label row)
  = result_map (map without_date) (row_entries date' label row).
Proof.
  unfold row_entries.
  destruct (reference_text _) as [text | ]; cbn [bind]; [ | reflexivity].
  destruct (amount_number _) as [[x | ] | ]; cbn [bind]; try reflexivity.
  destruct (exceeds_threshold x); reflexivity.
Qed.

Lemma iterrows_loop_without_date (date date' label : string) (todo : list Series) :
  forall entries entries',
    map without_date entries = map without_date entries' ->
    result_map (map without_date) (iterrows_loop date label todo entries)
    = result_map (map without_date) (iterrows_loop date' label todo entries').
Proof.
  induction todo as [ | row todo IH]; intros entries entries' Hacc;
    cbn [iterrows_loop].
  - cbn [result_map]. rewrite Hacc. reflexivity.
  - pose proof (row_entries_without_date date date' label row) as Hrow.
    destruct (row_entries date label row) as [new | e];
      destruct (row_entries date' label row) as [new' | e'];
      cbn [result_map bind] in *; try discriminate.
    + apply IH. rewrite !map_app, Hacc. f_equal. congruence.
    + exact Hrow.
Qed.

(** X13: the month column is found by the month and the last two digits
    of the year, so two periods a hundred years apart give the same
    postings but for the date. *)
Theorem generate_century_apart (df : DataFrame) (cols : list string)
    (target target' : string) (y m : Z) :
  strptime_Y_m target = Returned (y, m) ->
  strptime_Y_m target' = Returned (y + 100, m) ->
  result_map (map without_date) (generate_accounting_entries df cols target)
  = result_map (map without_date) (generate_accounting_entries df cols target').
Proof.
  intros Hparse Hparse'. unfold generate_accounting_entries.
  rewrite Hparse, Hparse'.
  assert (Hlabel : strftime_b_y (y + 100) m = strftime_b_y y m).
  { unfold strftime_b_y. replace (y + 100) with (y + 1 * 100) by lia.
    rewrite Z_mod_plus_full. reflexivity. }
  rewrite Hlabel. destruct (negb _); [reflexivity | ].
  apply iterrows_loop_without_date. reflexivity.
Qed.

Lemma series_get_absent (row : Series) (key : string) (d : value) :
  ~ In key (map fst row) -> series_get row key d = d.
Proof.
  induction row as [ | [k v] row IH]; simpl; intros Hnot; [reflexivity | ].
  destruct (String.eqb_spec k key) as [-> | _]; [tauto | apply IH; tauto].
Qed.

(** X14: when the label of the period is among the month columns given
    to the generator but the rows of the frame carry no such label, the
    amount of every row counts as zero and no entry is generated. *)
Theorem generate_missing_month_cells (df : DataFrame) (cols : list string)
    (target : string) (y m : Z) :
  strptime_Y_m target = Returned (y, m) ->
  Forall (fun row =>
            reference_typed (series_get row "Reference" VNA) = true
            /\ ~ In (strftime_b_y y m) (map fst row)) (rows df) ->
  generate_accounting_entries df cols target = Returned [].
Proof.
  intros Hparse Hrows. unfold generate_accounting_entries. rewrite Hparse.
  destruct (negb _); [reflexivity | ].
  generalize (strftime_d_m_Y y m (relativedelta_day31 y m)) as date. intros date.
  induction Hrows as [ | row todo [Href Hnot] _ IH]; [reflexivity | ].
  cbn [iterrows_loop]. unfold row_entries at 1.
  destruct (reference_text_typed _ Href) as [text ->].
  rewrite (series_get_absent _ _ _ Hnot). cbn [bind amount_number].
  change (exceeds_threshold (Finite (inject_Z 0))) with false. cbn [app]. exact IH.
Qed.

End GeneratorSigns.

(** ** The periods the generator reads *)

Lemma digit_char_digit_value (c : ascii) :
  char_isdecimal c = true -> digit_char (digit_value c) = c.
Proof.
  unfold char_isdecimal, between, digit_char, digit_value, code. intros H.
  apply andb_prop in H as [H1 H2]. apply Z.leb_le in H1, H2.
  replace (48 + Z.to_nat (Z.of_nat (nat_of_ascii c) - 48))%nat
    with (nat_of_ascii c) by lia.
  apply ascii_nat_embedding.
Qed.

Lemma between_value (lo hi : Z) (c : ascii) :
  between lo hi (code c) = true -> 48 <= lo -> hi <= 57 ->
  char_isdecimal c = true /\ lo - 48 <= digit_value c <= hi - 48.
Proof.
  unfold char_isdecimal, between, digit_value. intros H Hlo Hhi.
  apply andb_prop in H as [H1 H2]. apply Z.leb_le in H1, H2.
  split; [ | lia]. apply andb_true_intro. split; apply Z.leb_le; lia.
Qed.

Lemma zero_pad_1 (n : Z) : zero_pad 1 n = String (digit_char (n mod 10)) "".
Proof. reflexivity. Qed.

Lemma zero_pad_2 (n : Z) :
  zero_pad 2 n = String (digit_char (n / 10 mod 10)) (String (digit_char (n mod 10)) "").
Proof. reflexivity. Qed.

(** A month the parser reads to the end of the text is written in two
    digits, or in one digit when it is below ten. *)
Lemma match_month_text (s : string) (m : Z) :
  match_month s = Some (m, "") ->
  s = zero_pad 2 m \/ (m <= 9 /\ s = zero_pad 1 m).
Proof.
  unfold match_month. destruct s as [ | c s]; try discriminate.
  destruct (Ascii.eqb_spec c "1") as [-> | _].
  - destruct s as [ | c' s'].
    + intros H. assert (m = 1) by congruence. subst m. right. split; [lia | reflexivity].
    + destruct (between 48 50 (code c')) eqn:Hc; intros H.
      * destruct (between_value _ _ _ Hc ltac:(lia) ltac:(lia)) as [Hdec Hv].
        assert (Hm : m = 10 + digit_value c') by congruence.
        assert (Hs : s' = "") by congruence. subst s' m. left.
        assert (Hdiv : (10 + digit_value c') / 10 = 1)
          by (symmetry; apply (Z.div_unique _ 10 1 (digit_value c')); lia).
        assert (Hmod : (10 + digit_value c') mod 10 = digit_value c')
          by (symmetry; apply (Z.mod_unique _ 10 1 (digit_value c')); lia).
        rewrite zero_pad_2, Hdiv, Hmod, (digit_char_digit_value _ Hdec).
        reflexivity.
      * discriminate.
  - destruct (Ascii.eqb_spec c "0") as [-> | _].
    + destruct s as [ | c' s']; try discriminate.
      destruct (between 49 57 (code c')) eqn:Hc; try discriminate. intros H.
      destruct (between_value _ _ _ Hc ltac:(lia) ltac:(lia)) as [Hdec Hv].
      assert (Hm : m = digit_value c') by congruence.
      assert (Hs : s' = "") by congruence. subst s'. left.
      rewrite zero_pad_2.
      replace (m / 10 mod 10) with 0 by (rewrite Z.div_small by lia; reflexivity).
      replace (m mod 10) with (digit_value c') by (rewrite Z.mod_small; lia).
      rewrite (digit_char_digit_value _ Hdec). reflexivity.
    + destruct (between 49 57 (code c)) eqn:Hc; try discriminate. intros H.
      destruct (between_value _ _ _ Hc ltac:(lia) ltac:(lia)) as [Hdec Hv].
      assert (Hm : m = digit_value c) by congruence.
      assert (Hs : s = "") by congruence. subst s. right. split; [lia | ].
      rewrite zero_pad_1.
      replace (m mod 10) with (digit_value c) by (rewrite Z.mod_small; lia).
      rewrite (digit_char_digit_value _ Hdec). reflexivity.
Qed.

Lemma match_month_one_digit (m : Z) :
  1 <= m <= 9 -> match_month (zero_pad 1 m) = Some (m, "").
Proof.
  intros H.
  assert (Hcases : m = 1 \/ m = 2 \/ m = 3 \/ m = 4 \/ m = 5 \/ m = 6 \/ m = 7
                   \/ m = 8 \/ m = 9) by lia.
  repeat (destruct Hcases as [-> | Hcases]; [reflexivity | ]).
  subst m. reflexivity.
Qed.

Lemma four_digits_text (a b c d : ascii) :
  string_forallb char_isdecimal (String a (String b (String c (String d ""))))
  = true ->
  String a (String b (String c (String d "")))
  = zero_pad 4 (decimal_value (String a (String b (String c (String d "")))) 0).
Proof.
  cbn [string_forallb]. intros H.
  apply andb_prop in H as [Ha H]. apply andb_prop in H as [Hb H].
  apply andb_prop in H as [Hc H]. apply andb_prop in H as [Hd _].
  rewrite decimal_value_four.
  pose proof (char_isdecimal_value _ Ha) as Va.
  pose proof (char_isdecimal_value _ Hb) as Vb.
  pose proof (char_isdecimal_value _ Hc) as Vc.
  pose proof (char_isdecimal_value _ Hd) as Vd.
  rewrite <- (digit_char_digit_value _ Ha) at 1.
  rewrite <- (digit_char_digit_value _ Hb) at 1.
  rewrite <- (digit_char_digit_value _ Hc) at 1.
  rewrite <- (digit_char_digit_value _ Hd) at 1.
  set (y := 1000 * digit_value a + 100 * digit_value b + 10 * digit_value c
            + digit_value d).
  change (zero_pad 4 y)
    with (String (digit_char (y / 10 / 10 / 10 mod 10))
            (String (digit_char (y / 10 / 10 mod 10))
               (String (digit_char (y / 10 mod 10))
                  (String (digit_char (y mod 10)) "")))).
  assert (H0' : y mod 10 = digit_value d)
    by (symmetry; apply (Z.mod_unique y 10
          (100 * digit_value a + 10 * digit_value b + digit_value c)); unfold y; lia).
  assert (Q1 : y / 10 = 100 * digit_value a + 10 * digit_value b + digit_value c)
    by (symmetry; apply (Z.div_unique y 10 _ (digit_value d)); unfold y; lia).
  assert (H1' : y / 10 mod 10 = digit_value c)
    by (rewrite Q1; symmetry;
        apply (Z.mod_unique _ 10 (10 * digit_value a + digit_value b)); lia).
  assert (Q2 : y / 10 / 10 = 10 * digit_value a + digit_value b)
    by (rewrite Q1; symmetry; apply (Z.div_unique _ 10 _ (digit_value c)); lia).
  assert (H2' : y / 10 / 10 mod 10 = digit_value b)
    by (rewrite Q2; symmetry; apply (Z.mod_unique _ 10 (digit_value a)); lia).
  assert (Q3 : y / 10 / 10 / 10 = digit_value a)
    by (rewrite Q2; symmetry; apply (Z.div_unique _ 10 _ (digit_value b)); lia).
  assert (H3' : y / 10 / 10 / 10 mod 10 = digit_value a)
    by (rewrite Q3; apply Z.mod_small; lia).
  rewrite H0', H1', H2', H3'. reflexivity.
Qed.

(** X15: the periods the generator reads are exactly the texts made of a
    year from 1 to 9999 in four digits, a dash, and a month from 1 to 12 in
    two digits or, below ten, in one digit. *)
Theorem strptime_reads_exactly (s : string) (y m : Z) :
  strptime_Y_m s = Returned (y, m)
  <-> 1 <= y <= 9999 /\ 1 <= m <= 12
      /\ (s = period_text y m
          \/ (m <= 9 /\ s = zero_pad 4 y ++ "-" ++ zero_pad 1 m)).
Proof.
  split.
  - intros H. destruct (strptime_range _ _ _ H) as [Hy Hm].
    split; [assumption | split; [assumption | ]].
    unfold strptime_Y_m in H.
    destruct s as [ | a [ | b [ | c [ | d [ | sep rest]]]]]; try discriminate.
    destruct (string_forallb _ _ && Ascii.eqb sep dash) eqn:Hshape; try discriminate.
    apply andb_prop in Hshape as [Hdigits Hsep]. apply Ascii.eqb_eq in Hsep. subst sep.
    destruct (match_month rest) as [[m' [ | ? ?]] | ] eqn:Hmonth; try discriminate.
    pose proof (four_digits_text _ _ _ _ Hdigits) as Hyear.
    destruct (_ =? 0); try discriminate.
    assert (Hyv : y = decimal_value (String a (String b (String c (String d "")))) 0)
      by congruence.
    assert (Hmv : m = m') by congruence. subst m'.
    rewrite <- Hyv in Hyear.
    change (String a (String b (String c (String d (String dash rest)))))
      with (String a (String b (String c (String d ""))) ++ "-" ++ rest).
    rewrite Hyear.
    destruct (match_month_text _ _ Hmonth) as [-> | [Hle ->]].
    + left. reflexivity.
    + right. split; [assumption | reflexivity].
  - intros (Hy & Hm & [-> | [Hle ->]]).
    + apply strptime_period_text; assumption.
    + pose proof (decimal_value_zero_pad 4 y ltac:(simpl; lia)) as Hval.
      assert (Hdigit : forall n, char_isdecimal (digit_char (n mod 10)) = true).
      { intros n. apply char_isdecimal_digit_char.
        pose proof (Z.mod_pos_bound n 10). lia. }
      change (zero_pad 4 y)
        with (String (digit_char (y / 10 / 10 / 10 mod 10))
                (String (digit_char (y / 10 / 10 mod 10))
                   (String (digit_char (y / 10 mod 10))
                      (String (digit_char (y mod 10)) "")))) in *.
      cbn [append]. unfold strptime_Y_m. cbn [string_forallb].
      rewrite !Hdigit. cbn [andb]. unfold dash. rewrite Ascii.eqb_refl.
      rewrite (match_month_one_digit m ltac:(lia)), Hval.
      destruct (Z.eqb_spec y 0); [lia | reflexivity].
Qed.

(** ** The program *)

Lemma char_period_digit (n : Z) : period_char (digit_char (n mod 10)) = true.
Proof.
  unfold period_char. rewrite char_isdecimal_digit_char; [reflexivity | ].
  pose proof (Z.mod_pos_bound n 10). lia.
Qed.

(** A period the parser reads has six or seven characters, digits and one
    dash. *)
Lemma strptime_period_chars (s : string) (y m : Z) :
  strptime_Y_m s = Returned (y, m) ->
  string_forallb period_char s = true
  /\ (String.length s = 6%nat \/ String.length s = 7%nat).
Proof.
  unfold strptime_Y_m.
  destruct s as [ | a [ | b [ | c [ | d [ | sep rest]]]]]; try discriminate.
  destruct (string_forallb _ _ && Ascii.eqb sep dash) eqn:Hshape; try discriminate.
  apply andb_prop in Hshape as [Hdigits Hsep].
  destruct (match_month rest) as [[m' [ | ? ?]] | ] eqn:Hmonth; try discriminate.
  intros _. cbn [string_forallb] in *.
  apply andb_prop in Hdigits as [Ha Hdigits].
  apply andb_prop in Hdigits as [Hb Hdigits].
  apply andb_prop in Hdigits as [Hc Hdigits].
  apply andb_prop in Hdigits as [Hd _].
  unfold period_char at 1 2 3 4 5. rewrite Ha, Hb, Hc, Hd, Hsep, orb_true_r.
  cbn [orb andb String.length].
  destruct (match_month_text _ _ Hmonth) as [-> | [_ ->]].
  - rewrite zero_pad_2. cbn [string_forallb String.length].
    rewrite !char_period_digit. split; [reflexivity | right; reflexivity].
  - rewrite zero_pad_1. cbn [string_forallb String.length].
    rewrite !char_period_digit. split; [reflexivity | left; reflexivity].
Qed.

Section Program.
Context `{P : Pandas}.

Lemma generate_nonempty_parsed (df : DataFrame) (cols : list string)
    (target : string) (e : PostingEntry) (es : list PostingEntry) :
  generate_accounting_entries df cols target = Returned (e :: es) ->
  exists y m, strptime_Y_m target = Returned (y, m)
              /\ in_columns (strftime_b_y y m) cols = true.
Proof.
  unfold generate_accounting_entries.
  destruct (strptime_Y_m target) as [[y m] | err].
  - destruct (in_columns (strftime_b_y y m) cols) eqn:Hcol; cbn [negb];
      [ | discriminate].
    intros _. exists y, m. split; [reflexivity | exact Hcol].
  - destruct err; discriminate.
Qed.

(** X16: when the file, if it can be read, has a reference column, a run
    of the program ends with one of its four messages and never with an
    exception. *)
Theorem main_returns (env : environment) :
  (forall raw, read_schedule (csv_file env) = Returned raw ->
               In "Reference" (columns raw)) ->
  exists o, main env = Returned o.
Proof.
  intros Href. unfold main.
  destruct (load_prepayment_schedule (csv_file env)) as [[df cols] | ] eqn:Hload;
    [ | eexists; reflexivity].
  pose proof Hload as Hbody. apply load_Some in Hbody. unfold load_body in Hbody.
  destruct (read_schedule (csv_file env)) as [raw | ] eqn:Hread; try discriminate.
  destruct (generate_returns_on_loaded _ _ _ _ (typed_month env)
              Hread (Href raw eq_refl) Hload) as [es ->].
  cbn [bind]. destruct es; [ | destruct (can_write env)]; eexists; reflexivity.
Qed.

(** X17: a run saves a file only when writing is possible, the schedule
    loaded and the generator returned at least one entry; the table is that
    list, made of pairs of a debit and the credit with the negated amount
    (which add up to zero when the amount is finite and to no number when
    it is infinite), and the file name is "accounting_entries_", the month
    as typed and ".csv", where the month has six or seven characters, all
    digits or dashes. *)
Theorem main_saved_file (env : environment) (name : string)
    (table : list PostingEntry) :
  main env = Returned (EntriesSaved name table) ->
  can_write env = true
  /\ name = "accounting_entries_" ++ typed_month env ++ ".csv"
  /\ string_forallb period_char (typed_month env) = true
  /\ (String.length (typed_month env) = 6%nat
      \/ String.length (typed_month env) = 7%nat)
  /\ table <> []
  /\ ledger table
  /\ exists df cols,
       load_prepayment_schedule (csv_file env) = Some (df, cols)
       /\ generate_accounting_entries df cols (typed_month env) = Returned table.
Proof.
  unfold main.
  destruct (load_prepayment_schedule (csv_file env)) as [[df cols] | ];
    try discriminate.
  destruct (generate_accounting_entries df cols (typed_month env))
    as [[ | e es] | ] eqn:Hgen; cbn [bind]; try discriminate.
  destruct (can_write env); try discriminate.
  intros H. assert (Hname : name = "accounting_entries_" ++ typed_month env ++ ".csv")
    by congruence.
  assert (Htable : table = e :: es) by congruence. subst table. clear H.
  destruct (generate_nonempty_parsed _ _ _ _ _ Hgen) as (y & m & Hparse & _).
  destruct (strptime_period_chars _ _ _ Hparse) as [Hchars Hlen].
  repeat split; try assumption; try discriminate.
  - apply (generate_returns_ledger _ _ _ _ Hgen).
  - exists df, cols. split; [reflexivity | assumption].
Qed.

End Program.

(** ** The further properties on the examples *)


(** A summary line that is not the last line, or is written in another
    case, is a record like the others. *)
Example balance_elsewhere_is_kept :
  option_map (fun r => List.length (rows (fst r)))
    (load_prepayment_schedule
       (Some [ ["Prepayment schedule"]; ["Financial year 2024"];
               ["Items"; "Invoice number"; "Jan-24"];
               ["Balance"; ""; "-100.00"];
               ["Insurance"; "1001"; "-100.00"];
               ["balance"; ""; "-100.00"] ]))
  = Some 3%nat.
Proof. reflexivity. Qed.

Lemma header_only_file_fails_example :
  load_prepayment_schedule
    (Some [ ["Prepayment schedule"]; ["Financial year 2024"];
            ["Items"; "Invoice number"; "Jan-24"] ])
  = None.
Proof.
  apply (header_only_file_fails (P := plain_pandas)
           [ ["Prepayment schedule"]; ["Financial year 2024"];
             ["Items"; "Invoice number"; "Jan-24"] ]
           ["Items"; "Invoice number"; "Jan-24"]); reflexivity.
Defined.




Lemma load_month_cells_example :
  Forall2
    (fun row loaded =>
       series_get loaded "Feb-24" (VInt 0)
       = VFloat (match to_numeric (series_get row "Feb-24" VNaN) with
                 | Some q => q
                 | None => f_zero
                 end))
    (rows example_raw) (rows example_frame).
Proof.
  apply (load_month_cells (P := plain_pandas)
           example_lines
           example_raw example_frame example_months "Feb-24");
    [reflexivity | reflexivity | simpl; auto].
Defined.

Lemma load_other_cells_example :
  (forall label d,
     In label (columns example_raw) ->
     label <> "Reference" ->
     is_month_column label = false ->
     column_values example_frame label d = column_values example_raw label d)
  /\ (~ In "Prepayment Item" (columns example_raw) ->
      forall d,
        column_values example_frame "Prepayment Item" d
        = repeat (VStr "Generic Item") (List.length (rows example_raw))).
Proof.
  apply (load_other_cells (P := plain_pandas)
           example_lines
           example_raw example_frame example_months); reflexivity.
Defined.

(** A file without an item column: every record is a "Generic Item". *)
Example generic_item_default :
  option_map (fun r => column_values (fst r) "Prepayment Item" VNaN)
    (load_prepayment_schedule
       (Some [ ["Prepayment schedule"]; ["Financial year 2024"];
               ["Invoice number"; "Jan-24"];
               ["1001"; "-100.00"];
               ["1002"; "-50.00"] ]))
  = Some [VStr "Generic Item"; VStr "Generic Item"].
Proof. reflexivity. Qed.


Example january_generated :
  generate_accounting_entries example_frame example_months "2024-01"
  = Returned january_postings.
Proof. reflexivity. Qed.

Lemma generate_returns_pairs_example : ledger january_postings.
Proof.
  apply (generate_returns_pairs (P := plain_pandas)
           example_frame example_months "2024-01"); reflexivity.
Defined.

Lemma generate_reads_three_cells_example :
  generate_accounting_entries example_frame example_months "2024-01"
  = generate_accounting_entries
      {| columns := ["Jan-24"; "Reference"; "Prepayment Item"];
         rows :=
           [ [("Jan-24", VFloat (double (-10000 # 100))); ("Reference", VInt 1001);
              ("Prepayment Item", VStr "Insurance")];
             [("Jan-24", VFloat (double (3 # 1000))); ("Reference", VNA);
              ("Prepayment Item", VStr "Rent")];
             [("Jan-24", VFloat (double (6 # 1000))); ("Reference", VInt 46248);
              ("Prepayment Item", VStr "Licence")];
             [("Jan-24", VFloat (double (-20 # 1))); ("Reference", VNA);
              ("Prepayment Item", VStr "Hosting")] ] |}
      example_months "2024-01".
Proof.
  apply (generate_reads_three_cells (P := plain_pandas) example_frame _
           example_months "2024-01" 2024 1); [reflexivity | ].
  repeat constructor.
Defined.

Lemma generate_ignores_sign_example :
  generate_accounting_entries
    {| columns := columns example_frame;
       rows := map (negate_amount "Jan-24") (rows example_frame) |}
    example_months "2024-01"
  = generate_accounting_entries example_frame example_months "2024-01".
Proof.
  apply (generate_ignores_sign (P := plain_pandas)
           example_frame example_months "2024-01" 2024 1); reflexivity.
Defined.

Lemma generate_century_apart_example :
  result_map (map without_date)
    (generate_accounting_entries example_frame example_months "1924-01")
  = result_map (map without_date)
      (generate_accounting_entries example_frame example_months "2024-01").
Proof.
  apply (generate_century_apart (P := plain_pandas)
           example_frame example_months "1924-01" "2024-01" 1924 1); reflexivity.
Defined.

(** The period 1924-01 on the schedule of 2024: the same six postings,
    dated 1924. *)
Example previous_century_generated :
  result_map (map Date)
    (generate_accounting_entries example_frame example_months "1924-01")
  = Returned (repeat "31/01/1924" 6).
Proof. reflexivity. Qed.

Lemma generate_missing_month_cells_example :
  generate_accounting_entries example_frame ["Jan-24"; "Feb-24"; "Mar-24"] "2024-03"
  = Returned [].
Proof.
  apply (generate_missing_month_cells (P := plain_pandas)
           example_frame ["Jan-24"; "Feb-24"; "Mar-24"] "2024-03" 2024 3);
    [reflexivity | ].
  repeat constructor;
    simpl; intros H; repeat (destruct H as [H | H]; [discriminate | ]); exact H.
Defined.

Lemma main_returns_example :
  exists o,
    main {| csv_file := example_file; typed_month := "2024-01"; can_write := true |}
    = Returned o.
Proof.
  apply (main_returns (P := plain_pandas)).
  intros raw H.
  change (read_schedule example_file) with (Returned example_raw) in H.
  injection H as <-. simpl. auto.
Defined.

Example main_on_example :
  main {| csv_file := example_file; typed_month := "2024-01"; can_write := true |}
  = Returned (EntriesSaved "accounting_entries_2024-01.csv" january_postings).
Proof. reflexivity. Qed.

Lemma main_saved_file_example :
  true = true
  /\ "accounting_entries_2024-01.csv" = "accounting_entries_" ++ "2024-01" ++ ".csv"
  /\ string_forallb period_char "2024-01" = true
  /\ (String.length "2024-01" = 6%nat \/ String.length "2024-01" = 7%nat)
  /\ january_postings <> []
  /\ ledger january_postings
  /\ exists df cols,
       load_prepayment_schedule example_file = Some (df, cols)
       /\ generate_accounting_entries df cols "2024-01" = Returned january_postings.
Proof.
  apply (main_saved_file (P := plain_pandas)
           {| csv_file := example_file; typed_month := "2024-01"; can_write := true |}
           "accounting_entries_2024-01.csv" january_postings).
  reflexivity.
Defined.

(** The other ways a run ends. *)
Example main_other_outcomes :
  main {| csv_file := example_file; typed_month := "2024-01"; can_write := false |}
  = Returned (EntriesNotSaved january_postings)
  /\ main {| csv_file := example_file; typed_month := "2030-01"; can_write := true |}
     = Returned NoEntriesGenerated
  /\ main {| csv_file := example_file; typed_month := "2024/01"; can_write := true |}
     = Returned NoEntriesGenerated
  /\ main {| csv_file := None; typed_month := "2024-01"; can_write := true |}
     = Returned ScheduleNotLoaded
  /\ main {| csv_file := unreferenced_file; typed_month := "2024-01"; can_write := true |}
     = Raised ValueError.
Proof. repeat split; reflexivity. Qed.

(** ** When the loader succeeds *)


Section LoaderSuccess.
Context `{P : Pandas}.




(** X10: a file with a data line that has more cells than the header and
    more than the first data line does not load. *)
Theorem overlong_line_fails (lines : list (list string)) (header : list string)
    (body : list (list string)) (cells : list string) :
  skipn 2 lines = header :: body ->
  In cells body ->
  (line_width header body < List.length cells)%nat ->
  load_body (Some lines) = Raised ParserError
  /\ load_prepayment_schedule (Some lines) = None.
Proof.
  intros Hskip Hin Hwide.
  assert (Hbody : load_body (Some lines) = Raised ParserError).
  { unfold load_body, read_schedule, read_csv. rewrite Hskip.
    destruct (forallb _ body) eqn:Hfit; [ | reflexivity].
    rewrite forallb_forall in Hfit. specialize (Hfit cells Hin).
    apply Nat.leb_le in Hfit. lia. }
  split; [exact Hbody | ].
  apply load_None. exists ParserError. exact Hbody.
Qed.

(** X19: on a frame loaded from a file with a reference column the
    generator returns for every text given as the period, and what it
    returns is a sequence of pairs of a debit and the credit with the
    negated amount, which add up to zero when the amount is finite and to
    no number when it is infinite. *)
Theorem load_then_generate_returns (file : option (list (list string)))
    (raw df : DataFrame) (cols : list string) (target : string) :
  read_schedule file = Returned raw ->
  In "Reference" (columns raw) ->
  load_prepayment_schedule file = Some (df, cols) ->
  exists es,
    generate_accounting_entries df cols target = Returned es /\ ledger es.
Proof.
  intros Hread Hin Hload.
  destruct (generate_returns_on_loaded _ _ _ _ target Hread Hin Hload) as [es Hes].
  exists es. split; [exact Hes | apply (generate_returns_ledger _ _ _ _ Hes)].
Qed.

End LoaderSuccess.

Lemma load_then_generate_returns_example :
  exists es,
    generate_accounting_entries example_frame example_months "2024-01" = Returned es
    /\ ledger es.
Proof.
  apply (load_then_generate_returns (P := plain_pandas)
           example_file example_raw example_frame example_months "2024-01").
  - reflexivity.
  - simpl. auto.
  - reflexivity.
Defined.

(** The schedule with the infinite amount, from the file to the postings:
    a pair, and no zero sum. *)
Example infinite_file_postings :
  exists debit credit,
    load_prepayment_schedule infinite_file = Some (infinite_frame, ["Jan-24"])
    /\ generate_accounting_entries infinite_frame ["Jan-24"] "2024-01"
       = Returned [debit; credit]
    /\ balanced_pair debit credit
    /\ is_finite (Amount debit) = false.
Proof.
  do 2 eexists. split; [reflexivity | split; [reflexivity | ]].
  split; [ | reflexivity].
  unfold balanced_pair; cbn [Account Amount Date Description Reference].
  repeat split; try discriminate.
Qed.


Lemma overlong_line_fails_example :
  load_body overlong_file = Raised ParserError
  /\ load_prepayment_schedule overlong_file = None.
Proof.
  apply (overlong_line_fails (P := plain_pandas)
           [ ["Prepayment schedule"];
             ["Financial year 2024"];
             ["Items"; "Invoice number"; "Jan-24"];
             ["Insurance"; "1001"; "-100.00"];
             ["Rent"; "1002"; "-50.00"; "paid"];
             ["Balance"; ""; "-150.00"] ]
           ["Items"; "Invoice number"; "Jan-24"]
           [ ["Insurance"; "1001"; "-100.00"];
             ["Rent"; "1002"; "-50.00"; "paid"];
             ["Balance"; ""; "-150.00"] ]
           ["Rent"; "1002"; "-50.00"; "paid"]).
  - reflexivity.
  - simpl. auto.
  - apply Nat.ltb_lt. reflexivity.
Defined.
